(** * The MDS GATT profile of [main/gatts_demo.c]

    A shallow embedding of the profile's state ([mds_state], [mds_handles],
    [profile_handle], the profile table's service id), of
    [send_chunk_notification] and of [gatts_profile_event_handler], followed
    by the properties of the export session proved on it.

    The handler is a function from the globals and one stack event to the
    new globals and the list of calls made into the BLE stack, the log and
    the Memfault packetizer, in program order.  What the collaborators
    answer during one event (the allocator, the packetizer, the result of
    the notification submission) is supplied with the event.

    The file also embeds [gap_event_handler], [gatts_event_handler],
    [update_data_uri], and the bring-up of [app_main] with
    [initialize_console] as a sequence of calls whose results are supplied
    per call site. *)

From Stdlib Require Import ZArith List Bool String Lia.
Import ListNotations.
Local Open Scope Z_scope.

(** ** Machine integers *)

Definition uint8_t (x : Z) : Z := x mod 2 ^ 8.
Definition uint16_t (x : Z) : Z := x mod 2 ^ 16.
(** [size_t] is 32 bits wide on the ESP32. *)
Definition size_t (x : Z) : Z := x mod 2 ^ 32.

Definition bytes_of_string (s : string) : list Z :=
  map (fun a => Z.of_N (Ascii.N_of_ascii a)) (list_ascii_of_string s).

(** ** Constants of the SDK headers used by the file *)

Definition ESP_GATT_OK : Z := 0x00.
Definition ESP_GATT_INVALID_HANDLE : Z := 0x01.
Definition ESP_GATT_INVALID_PDU : Z := 0x04.
Definition ESP_UUID_LEN_16 : Z := 2.
Definition ESP_UUID_LEN_128 : Z := 16.
Definition ESP_GATT_UUID_CHAR_CLIENT_CONFIG : Z := 0x2902.
Definition ESP_GATT_PERM_READ : Z := 1.
Definition ESP_GATT_PERM_WRITE : Z := 16.
Definition ESP_GATT_CHAR_PROP_BIT_READ : Z := 2.
Definition ESP_GATT_CHAR_PROP_BIT_WRITE : Z := 8.
Definition ESP_GATT_CHAR_PROP_BIT_NOTIFY : Z := 16.

(** ** Constants of [gatts_demo.c] *)

Definition PROFILE_APP_ID : Z := 0.
Definition MDS_NUM_CHARACTERISTICS : Z := 5.
Definition MDS_NUM_DESCRIPTORS : Z := 1.
Definition MDS_NUM_HANDLES : Z :=
  1 + (2 * MDS_NUM_CHARACTERISTICS) + MDS_NUM_DESCRIPTORS.

Definition MDS_ERR_INVALID_LENGTH : Z := 0x80.
Definition MDS_ERR_CLIENT_ALREADY_SUBSCRIBED : Z := 0x81.
Definition MDS_ERR_CLIENT_NOT_SUBSCRIBED : Z := 0x82.

Definition adv_service_uuid128 : list Z :=
  [0x36; 0x84; 0xbd; 0x4e; 0x2f; 0x72; 0x71; 0xa3;
   0x07; 0x40; 0xa5; 0xf6; 0x00; 0x00; 0x22; 0x54].

Definition mds_supported_features : list Z := [0x00].
Definition mds_device_id : string := "ESP32-TEST-DEVICE".
Definition mds_auth : string :=
  "Memfault-Project-Key:kWRfBKMZ9T5Mtw3yrzZBRIIGoTRBpr8V".

(** ** Data *)

(** [esp_bt_uuid_t]: a length and a union of a 16-bit, a 32-bit and a
    128-bit identifier sharing their first bytes (little-endian). *)
Record esp_bt_uuid_t := mk_uuid {
  uuid_len : Z;
  uuid128 : list Z
}.

Definition uuid16 (u : esp_bt_uuid_t) : Z :=
  Z.lor (Z.shiftl (nth 1 (uuid128 u) 0) 8) (nth 0 (uuid128 u) 0).

(** The initialiser [{ .len = ESP_UUID_LEN_16, .uuid.uuid16 = v }]. *)
Definition uuid_of_16 (v : Z) : esp_bt_uuid_t :=
  mk_uuid ESP_UUID_LEN_16
    ([Z.land v 0xff; Z.land (Z.shiftr v 8) 0xff] ++ repeat 0 14%nat).

(** 5422000n-f6a5-4007-a371-722f4ebd8436 in little-endian. *)
Definition mds_char_uuid (n : Z) : esp_bt_uuid_t :=
  mk_uuid ESP_UUID_LEN_128
    [0x36; 0x84; 0xbd; 0x4e; 0x2f; 0x72; 0x71; 0xa3;
     0x07; 0x40; 0xa5; 0xf6; n; 0x00; 0x22; 0x54].

Record esp_gatt_srvc_id_t := mk_srvc_id {
  is_primary : bool;
  inst_id : Z;
  srvc_uuid : esp_bt_uuid_t
}.

Record mds_state_t := mk_mds_state {
  subscribed : bool;
  conn_id : Z;
  export_mode : Z;
  chunk_sequence : Z;
  mtu : Z;
  congested : bool
}.

Definition mds_state_init : mds_state_t :=
  {| subscribed := false;
     conn_id := 0xFFFF;
     export_mode := 0;
     chunk_sequence := 0;
     mtu := 23;
     congested := false |}.

Record mds_handles_t := mk_mds_handles {
  supported_features_handle : Z;
  device_id_handle : Z;
  data_uri_handle : Z;
  auth_handle : Z;
  data_export_handle : Z;
  data_export_cccd_handle : Z
}.

Definition mds_handles_init : mds_handles_t := mk_mds_handles 0 0 0 0 0 0.

(** The file's static variables. [mds_data_uri] holds the bytes before the
    terminating NUL of the buffer filled by [update_data_uri]. *)
Record globals := mk_globals {
  profile_handle : Z;
  service_id : esp_gatt_srvc_id_t;
  mds_data_uri : list Z;
  mds_state : mds_state_t;
  mds_handles : mds_handles_t
}.

Definition globals_init (uri : list Z) : globals :=
  {| profile_handle := 0;
     service_id := mk_srvc_id false 0 (mk_uuid 0 (repeat 0 16%nat));
     mds_data_uri := uri;
     mds_state := mds_state_init;
     mds_handles := mds_handles_init |}.

Definition with_state (g : globals) (s : mds_state_t) : globals :=
  mk_globals (profile_handle g) (service_id g) (mds_data_uri g) s (mds_handles g).

Definition with_handles (g : globals) (h : mds_handles_t) : globals :=
  mk_globals (profile_handle g) (service_id g) (mds_data_uri g) (mds_state g) h.

Definition set_subscribed (b : bool) (s : mds_state_t) : mds_state_t :=
  mk_mds_state b (conn_id s) (export_mode s) (chunk_sequence s) (mtu s) (congested s).
Definition set_conn_id (c : Z) (s : mds_state_t) : mds_state_t :=
  mk_mds_state (subscribed s) c (export_mode s) (chunk_sequence s) (mtu s) (congested s).
Definition set_export_mode (m : Z) (s : mds_state_t) : mds_state_t :=
  mk_mds_state (subscribed s) (conn_id s) m (chunk_sequence s) (mtu s) (congested s).
Definition set_chunk_sequence (n : Z) (s : mds_state_t) : mds_state_t :=
  mk_mds_state (subscribed s) (conn_id s) (export_mode s) n (mtu s) (congested s).
Definition set_mtu (m : Z) (s : mds_state_t) : mds_state_t :=
  mk_mds_state (subscribed s) (conn_id s) (export_mode s) (chunk_sequence s) m (congested s).
Definition set_congested (b : bool) (s : mds_state_t) : mds_state_t :=
  mk_mds_state (subscribed s) (conn_id s) (export_mode s) (chunk_sequence s) (mtu s) b.

(** [esp_gatt_rsp_t], reduced to the fields the read handler fills. *)
Record esp_gatt_rsp_t := mk_rsp {
  rsp_handle : Z;
  rsp_len : Z;
  rsp_value : list Z
}.

(** ** Calls made by the handler *)

Inductive log_level := LOGE | LOGI.

Inductive action :=
| esp_log (lvl : log_level) (fmt : string)
| esp_ble_gatts_create_service (gatts_if : Z) (sid : esp_gatt_srvc_id_t) (num_handle : Z)
| esp_ble_gatts_add_char (service_handle : Z) (uuid : esp_bt_uuid_t) (perm property : Z)
| esp_ble_gatts_add_char_descr (service_handle : Z) (uuid : esp_bt_uuid_t) (perm : Z)
| esp_ble_gatts_start_service (service_handle : Z)
| esp_ble_gatts_send_response (gatts_if cid trans_id status : Z) (rsp : option esp_gatt_rsp_t)
| esp_ble_gatts_send_indicate (gatts_if cid attr_handle value_len : Z) (value : list Z)
    (need_confirm : bool) (ret_ok : bool)
| memfault_packetizer_abort
| esp_ble_gap_start_advertising.

(** ** Events delivered by the stack *)

Inductive gatts_event :=
| ESP_GATTS_REG_EVT (status app_id : Z)
| ESP_GATTS_CREATE_EVT (status service_handle : Z)
| ESP_GATTS_ADD_CHAR_EVT (status attr_handle service_handle : Z) (char_uuid : esp_bt_uuid_t)
| ESP_GATTS_ADD_CHAR_DESCR_EVT (status attr_handle service_handle : Z) (descr_uuid : esp_bt_uuid_t)
| ESP_GATTS_READ_EVT (cid trans_id handle : Z)
| ESP_GATTS_WRITE_EVT (cid trans_id handle : Z) (value : list Z)
| ESP_GATTS_CONF_EVT (status : Z)
| ESP_GATTS_MTU_EVT (m : Z)
| ESP_GATTS_DISCONNECT_EVT (reason : Z)
| ESP_GATTS_START_EVT (status : Z)
| ESP_GATTS_CONGEST_EVT (c : bool)
| ESP_GATTS_OTHER_EVT.

(** ** Collaborators

    What the allocator, the packetizer and the stack answer to the calls of
    one [send_chunk_notification]:
    - [malloc n] tells whether a request of [n] bytes is granted;
    - [memfault_packetizer_get_chunk n] is [None] when the packetizer has no
      data, and otherwise the bytes it wrote into a buffer of [n] bytes (their
      number is what it stores back through its length argument);
    - [send_indicate_ok] tells whether [esp_ble_gatts_send_indicate] returns
      [ESP_OK]. *)
Record env_t := mk_env {
  malloc : Z -> bool;
  memfault_packetizer_get_chunk : Z -> option (list Z);
  send_indicate_ok : bool
}.

(** ** [send_chunk_notification] *)

(** The header byte of [mds_data_export_payload_t]: [chunk_number] in the
    five low bits, [rfu] in the three high bits. *)
Definition payload_header (chunk_number rfu : Z) : Z :=
  Z.lor (chunk_number mod 2 ^ 5) (Z.shiftl (rfu mod 2 ^ 3) 5).

Definition send_chunk_notification (e : env_t) (gatts_if : Z) (g : globals)
  : globals * list action :=
  let s := mds_state g in
  if negb (subscribed s) || negb (export_mode s =? 0x01) || congested s then
    (g, [])
  else
    let mtu_size := mtu s in
    let max_chunk_size := size_t (mtu_size - 4) in
    let total_len := size_t (1 + max_chunk_size) in
    if negb (malloc e total_len) then
      (g, [esp_log LOGE "Failed to allocate notification buffer"])
    else
      let header := payload_header (chunk_sequence s) 0 in
      match memfault_packetizer_get_chunk e max_chunk_size with
      | None =>
          (with_state g (set_export_mode 0x00 s),
           [esp_log LOGI "No more chunks available"])
      | Some data =>
          let chunk_size := Z.of_nat (Datatypes.length data) in
          let total_len := size_t (1 + chunk_size) in
          let call :=
            esp_ble_gatts_send_indicate gatts_if (conn_id s)
              (data_export_handle (mds_handles g)) total_len (header :: data)
              false (send_indicate_ok e) in
          if negb (send_indicate_ok e) then
            (g, [call; esp_log LOGE "Failed to send notification: %d";
                 memfault_packetizer_abort])
          else
            (with_state g
               (set_chunk_sequence
                  (uint8_t (Z.land (chunk_sequence s + 1) 0x1F)) s),
             [call; esp_log LOGI "Sent chunk %d, size %d"])
      end.

(** ** [gatts_profile_event_handler] *)

(** The role-distinguishing byte the handler reads: [uuid.uuid128[12]]. *)
Definition role_byte (u : esp_bt_uuid_t) : Z := nth 12 (uuid128 u) 0.

(** First [if] chain of [ESP_GATTS_ADD_CHAR_EVT]: record the handle. *)
Definition record_char_handle (b attr_handle : Z) (h : mds_handles_t) : mds_handles_t :=
  if b =? 0x01 then
    mk_mds_handles attr_handle (device_id_handle h) (data_uri_handle h)
      (auth_handle h) (data_export_handle h) (data_export_cccd_handle h)
  else if b =? 0x02 then
    mk_mds_handles (supported_features_handle h) attr_handle (data_uri_handle h)
      (auth_handle h) (data_export_handle h) (data_export_cccd_handle h)
  else if b =? 0x03 then
    mk_mds_handles (supported_features_handle h) (device_id_handle h) attr_handle
      (auth_handle h) (data_export_handle h) (data_export_cccd_handle h)
  else if b =? 0x04 then
    mk_mds_handles (supported_features_handle h) (device_id_handle h)
      (data_uri_handle h) attr_handle (data_export_handle h)
      (data_export_cccd_handle h)
  else if b =? 0x05 then
    mk_mds_handles (supported_features_handle h) (device_id_handle h)
      (data_uri_handle h) (auth_handle h) attr_handle (data_export_cccd_handle h)
  else h.

(** Second [if] chain of [ESP_GATTS_ADD_CHAR_EVT]: request the next attribute. *)
Definition add_next_attribute (b ph : Z) : list action :=
  if b =? 0x01 then
    [esp_ble_gatts_add_char ph (mds_char_uuid 0x02)
       ESP_GATT_PERM_READ ESP_GATT_CHAR_PROP_BIT_READ]
  else if b =? 0x02 then
    [esp_ble_gatts_add_char ph (mds_char_uuid 0x03)
       ESP_GATT_PERM_READ ESP_GATT_CHAR_PROP_BIT_READ]
  else if b =? 0x03 then
    [esp_ble_gatts_add_char ph (mds_char_uuid 0x04)
       ESP_GATT_PERM_READ ESP_GATT_CHAR_PROP_BIT_READ]
  else if b =? 0x04 then
    [esp_ble_gatts_add_char ph (mds_char_uuid 0x05)
       ESP_GATT_PERM_WRITE
       (Z.lor ESP_GATT_CHAR_PROP_BIT_WRITE ESP_GATT_CHAR_PROP_BIT_NOTIFY)]
  else if b =? 0x05 then
    [esp_ble_gatts_add_char_descr ph (uuid_of_16 ESP_GATT_UUID_CHAR_CLIENT_CONFIG)
       (Z.lor ESP_GATT_PERM_READ ESP_GATT_PERM_WRITE)]
  else [].

Definition read_value (g : globals) (handle : Z) : option (list Z) :=
  let h := mds_handles g in
  if handle =? supported_features_handle h then Some mds_supported_features
  else if handle =? device_id_handle h then Some (bytes_of_string mds_device_id)
  else if handle =? data_uri_handle h then Some (mds_data_uri g)
  else if handle =? auth_handle h then Some (bytes_of_string mds_auth)
  else None.

(** [descr_value] of the CCCD write: the two written bytes, little-endian. *)
Definition cccd_descr_value (value : list Z) : Z :=
  uint16_t (Z.lor (Z.shiftl (nth 1 value 0) 8) (nth 0 value 0)).

Definition gatts_profile_event_handler (e : env_t) (event : gatts_event)
    (gatts_if : Z) (g : globals) : globals * list action :=
  let s := mds_state g in
  let h := mds_handles g in
  match event with
  | ESP_GATTS_REG_EVT status app_id =>
      let sid := mk_srvc_id true 0x00 (mk_uuid ESP_UUID_LEN_128 adv_service_uuid128) in
      let g1 := mk_globals (profile_handle g) sid (mds_data_uri g) s h in
      (g1, [esp_log LOGI "REGISTER_APP_EVT, status %d, app_id %d";
            esp_ble_gatts_create_service gatts_if sid MDS_NUM_HANDLES])
  | ESP_GATTS_CREATE_EVT status service_handle =>
      let g1 := mk_globals service_handle (service_id g) (mds_data_uri g) s h in
      (g1, [esp_log LOGI "CREATE_SERVICE_EVT, status %d, service_handle %d";
            esp_ble_gatts_add_char service_handle (mds_char_uuid 0x01)
              ESP_GATT_PERM_READ ESP_GATT_CHAR_PROP_BIT_READ])
  | ESP_GATTS_ADD_CHAR_EVT status attr_handle service_handle char_uuid =>
      let b := role_byte char_uuid in
      (with_handles g (record_char_handle b attr_handle h),
       esp_log LOGI "ADD_CHAR_EVT, status %d, attr_handle %d, service_handle %d"
         :: add_next_attribute b (profile_handle g))
  | ESP_GATTS_ADD_CHAR_DESCR_EVT status attr_handle service_handle descr_uuid =>
      let h1 :=
        if uuid16 descr_uuid =? ESP_GATT_UUID_CHAR_CLIENT_CONFIG then
          mk_mds_handles (supported_features_handle h) (device_id_handle h)
            (data_uri_handle h) (auth_handle h) (data_export_handle h) attr_handle
        else h in
      (with_handles g h1,
       [esp_log LOGI "ADD_DESCR_EVT, status %d, attr_handle %d, service_handle %d";
        esp_ble_gatts_start_service (profile_handle g)])
  | ESP_GATTS_READ_EVT cid trans_id handle =>
      match read_value g handle with
      | Some v =>
          (g, [esp_log LOGI "GATT_READ_EVT, handle %d";
               esp_ble_gatts_send_response gatts_if cid trans_id ESP_GATT_OK
                 (Some (mk_rsp handle (Z.of_nat (Datatypes.length v)) v))])
      | None =>
          (g, [esp_log LOGI "GATT_READ_EVT, handle %d";
               esp_ble_gatts_send_response gatts_if cid trans_id
                 ESP_GATT_INVALID_HANDLE None])
      end
  | ESP_GATTS_WRITE_EVT cid trans_id handle value =>
      let entry := esp_log LOGI "GATT_WRITE_EVT, handle %d" in
      let len := Z.of_nat (Datatypes.length value) in
      if handle =? data_export_handle h then
        if negb (len =? 1) then
          (g, [entry; esp_ble_gatts_send_response gatts_if cid trans_id
                        MDS_ERR_INVALID_LENGTH None])
        else if negb (subscribed s) then
          (g, [entry; esp_ble_gatts_send_response gatts_if cid trans_id
                        MDS_ERR_CLIENT_NOT_SUBSCRIBED None])
        else
          let mode := nth 0 value 0 in
          if negb (mode =? 0x00) && negb (mode =? 0x01) then
            (g, [entry; esp_ble_gatts_send_response gatts_if cid trans_id
                          ESP_GATT_INVALID_PDU None])
          else
            let g1 := with_state g (set_export_mode mode s) in
            let rsp := esp_ble_gatts_send_response gatts_if cid trans_id
                         ESP_GATT_OK None in
            if mode =? 0x01 then
              let '(g2, acts) := send_chunk_notification e gatts_if g1 in
              (g2, entry :: rsp :: acts)
            else (g1, [entry; rsp])
      else if handle =? data_export_cccd_handle h then
        if negb (len =? 2) then
          (g, [entry; esp_ble_gatts_send_response gatts_if cid trans_id
                        MDS_ERR_INVALID_LENGTH None])
        else
          let descr_value := cccd_descr_value value in
          let notifications_enabled := negb (Z.land descr_value 0x0001 =? 0) in
          if notifications_enabled && subscribed s && negb (conn_id s =? cid) then
            (g, [entry; esp_ble_gatts_send_response gatts_if cid trans_id
                          MDS_ERR_CLIENT_ALREADY_SUBSCRIBED None])
          else
            let s1 := set_subscribed notifications_enabled s in
            let s2 := set_conn_id (if notifications_enabled then cid else 0xFFFF) s1 in
            let s3 := if negb notifications_enabled then set_export_mode 0x00 s2 else s2 in
            (with_state g s3,
             [entry; esp_ble_gatts_send_response gatts_if cid trans_id
                       ESP_GATT_OK None])
      else (g, [entry])
  | ESP_GATTS_CONF_EVT status =>
      if export_mode s =? 0x01 then send_chunk_notification e gatts_if g
      else (g, [])
  | ESP_GATTS_MTU_EVT m =>
      (with_state g (set_mtu m s), [esp_log LOGI "ESP_GATTS_MTU_EVT, MTU %d"])
  | ESP_GATTS_DISCONNECT_EVT reason =>
      let s1 := set_subscribed false s in
      let s2 := set_conn_id 0xFFFF s1 in
      let s3 := set_export_mode 0 s2 in
      (with_state g s3,
       [esp_log LOGI "ESP_GATTS_DISCONNECT_EVT, reason = 0x%x";
        esp_ble_gap_start_advertising])
  | ESP_GATTS_START_EVT status =>
      if status =? ESP_GATT_OK then
        (g, [esp_log LOGI "GATTS service started successfully"])
      else
        (g, [esp_log LOGE "GATTS service start failed, error status = %d"])
  | ESP_GATTS_CONGEST_EVT c =>
      let g1 := with_state g (set_congested c s) in
      let entry := esp_log LOGI "ESP_GATTS_CONGEST_EVT, congested: %d" in
      if negb c && (export_mode s =? 0x01) then
        let '(g2, acts) := send_chunk_notification e gatts_if g1 in
        (g2, entry :: acts)
      else (g1, [entry])
  | ESP_GATTS_OTHER_EVT => (g, [])
  end.

(** ** Event traces *)

(** One delivery: the event and what the collaborators answer during it. *)
Definition delivery : Type := env_t * gatts_event.

(** One handled delivery: the globals before it, the delivery, its calls. *)
Definition handled : Type := globals * delivery * list action.

Fixpoint run (gatts_if : Z) (g : globals) (tr : list delivery) : list handled :=
  match tr with
  | [] => []
  | (e, ev) :: tr' =>
      let '(g1, acts) := gatts_profile_event_handler e ev gatts_if g in
      (g, (e, ev), acts) :: run gatts_if g1 tr'
  end.

(** The globals after a trace. *)
Fixpoint final (gatts_if : Z) (g : globals) (tr : list delivery) : globals :=
  match tr with
  | [] => g
  | (e, ev) :: tr' =>
      final gatts_if (fst (gatts_profile_event_handler e ev gatts_if g)) tr'
  end.

(** ** Observations on the calls *)

Definition is_send (a : action) : bool :=
  match a with esp_ble_gatts_send_indicate _ _ _ _ _ _ _ => true | _ => false end.

(** A notification the stack accepted. *)
Definition is_submitted (a : action) : bool :=
  match a with esp_ble_gatts_send_indicate _ _ _ _ _ _ ok => ok | _ => false end.

(** A notification the stack refused. *)
Definition is_refused (a : action) : bool :=
  match a with esp_ble_gatts_send_indicate _ _ _ _ _ _ ok => negb ok | _ => false end.

Definition is_abort (a : action) : bool :=
  match a with memfault_packetizer_abort => true | _ => false end.

Definition is_response (a : action) : bool :=
  match a with esp_ble_gatts_send_response _ _ _ _ _ => true | _ => false end.

Definition is_start_service (a : action) : bool :=
  match a with esp_ble_gatts_start_service _ => true | _ => false end.

(** Requests of the service build sequence. *)
Definition is_build_request (a : action) : bool :=
  match a with
  | esp_ble_gatts_create_service _ _ _
  | esp_ble_gatts_add_char _ _ _ _
  | esp_ble_gatts_add_char_descr _ _ _
  | esp_ble_gatts_start_service _ => true
  | _ => false
  end.

Definition is_drain_log (a : action) : bool :=
  match a with
  | esp_log LOGI fmt => String.eqb fmt "No more chunks available"
  | _ => false
  end.

Definition count (p : action -> bool) (acts : list action) : nat :=
  Datatypes.length (filter p acts).

(** Header bytes of the notifications the stack accepted. *)
Definition submitted_headers (acts : list action) : list Z :=
  flat_map (fun a =>
    match a with
    | esp_ble_gatts_send_indicate _ _ _ _ (hd :: _) _ true => [hd]
    | _ => []
    end) acts.

Definition trace_headers (l : list handled) : list Z :=
  flat_map (fun r => submitted_headers (snd r)) l.

(** Each header is its predecessor plus one, modulo 32. *)
Fixpoint follows (l : list Z) : bool :=
  match l with
  | a :: (b :: _) as t => (b =? (a + 1) mod 32) && follows t
  | _ => true
  end.

(** ** Ranges of the session fields *)

Definition sequence_in_range (g : globals) : Prop :=
  0 <= chunk_sequence (mds_state g) < 32.

Definition mtu_in_range (g : globals) : Prop :=
  0 <= mtu (mds_state g) < 2 ^ 16.

(** The event carries values of its C types where the session stores them. *)
Definition event_in_range (ev : gatts_event) : Prop :=
  match ev with
  | ESP_GATTS_MTU_EVT m => 0 <= m < 2 ^ 16
  | _ => True
  end.

(** ** Contracts of the collaborators *)

(** The packetizer never writes more bytes than the buffer length it is given. *)
Definition source_contract (e : env_t) : Prop :=
  forall n data,
    memfault_packetizer_get_chunk e n = Some data ->
    Z.of_nat (Datatypes.length data) <= n.

(** The allocator grants neither an empty request nor one that would take
    the whole 32-bit address space but its last three bytes. *)
Definition heap_contract (e : env_t) : Prop :=
  forall n, malloc e n = true -> 0 < n < 2 ^ 32 - 3.

(** ** Pacing of the export *)

Definition is_confirm (ev : gatts_event) : bool :=
  match ev with ESP_GATTS_CONF_EVT _ => true | _ => false end.

Definition is_congestion_clear (ev : gatts_event) : bool :=
  match ev with ESP_GATTS_CONGEST_EVT c => negb c | _ => false end.

(** The deliveries on which the handler reaches a chunk submission: a
    one-byte write of 1 to the DataExport handle by a subscribed session, a
    confirmation while streaming, a congestion clearing while streaming. *)
Definition is_trigger (g : globals) (ev : gatts_event) : bool :=
  match ev with
  | ESP_GATTS_WRITE_EVT _ _ handle value =>
      (handle =? data_export_handle (mds_handles g))
      && (Z.of_nat (Datatypes.length value) =? 1)
      && subscribed (mds_state g)
      && (nth 0 value 0 =? 0x01)
  | ESP_GATTS_CONF_EVT _ => export_mode (mds_state g) =? 0x01
  | ESP_GATTS_CONGEST_EVT c => negb c && (export_mode (mds_state g) =? 0x01)
  | _ => false
  end.

(** One chunk in flight: scanning the handled deliveries, a submission is
    accepted only when no earlier one is still pending; a confirmation or a
    congestion clearing (before the delivery's own calls) and a drain to
    idle (after them) clear the pending one. *)
Fixpoint single_in_flight (pending : bool) (l : list handled) : bool :=
  match l with
  | [] => true
  | (_, (_, ev), acts) :: l' =>
      let pending0 := pending && negb (is_confirm ev || is_congestion_clear ev) in
      let n := count is_submitted acts in
      if (pending0 && Nat.ltb 0 n) || Nat.ltb 1 n then false
      else
        single_in_flight
          ((Nat.ltb 0 n || pending0) && negb (existsb is_drain_log acts)) l'
  end.

(** ** The build sequence and failed confirmations *)

Definition creation_failed (ev : gatts_event) : bool :=
  match ev with
  | ESP_GATTS_CREATE_EVT status _
  | ESP_GATTS_ADD_CHAR_EVT status _ _ _
  | ESP_GATTS_ADD_CHAR_DESCR_EVT status _ _ _ => negb (status =? ESP_GATT_OK)
  | _ => false
  end.

(** No build request is issued in or after a delivery that confirms an
    attribute creation with a non-success status. *)
Fixpoint build_stops (failed : bool) (l : list handled) : bool :=
  match l with
  | [] => true
  | (_, (_, ev), acts) :: l' =>
      let failed0 := failed || creation_failed ev in
      if failed0 && existsb is_build_request acts then false
      else build_stops failed0 l'
  end.

(** ** Sample collaborators and traces *)

(** Grants every allocation; the packetizer hands out [data] when the buffer
    can hold it and nothing otherwise; the stack answers [ok]. *)
Definition env_chunk (data : list Z) (ok : bool) : env_t :=
  {| malloc := fun _ => true;
     memfault_packetizer_get_chunk := fun n =>
       if Z.of_nat (Datatypes.length data) <=? n then Some data else None;
     send_indicate_ok := ok |}.

(** As [env_chunk], with the packetizer drained. *)
Definition env_drained : env_t :=
  {| malloc := fun _ => true;
     memfault_packetizer_get_chunk := fun _ => None;
     send_indicate_ok := true |}.

Definition cccd_uuid : esp_bt_uuid_t := uuid_of_16 ESP_GATT_UUID_CHAR_CLIENT_CONFIG.

(** Registration and the seven creation confirmations, each with [status];
    the stack assigns the handles 40 (service), 42, 44, 46, 48, 50
    (characteristic values) and 51 (descriptor). *)
Definition build_trace (status : Z) : list delivery :=
  map (fun ev => (env_drained, ev))
    [ESP_GATTS_REG_EVT 0 PROFILE_APP_ID;
     ESP_GATTS_CREATE_EVT status 40;
     ESP_GATTS_ADD_CHAR_EVT status 42 40 (mds_char_uuid 0x01);
     ESP_GATTS_ADD_CHAR_EVT status 44 40 (mds_char_uuid 0x02);
     ESP_GATTS_ADD_CHAR_EVT status 46 40 (mds_char_uuid 0x03);
     ESP_GATTS_ADD_CHAR_EVT status 48 40 (mds_char_uuid 0x04);
     ESP_GATTS_ADD_CHAR_EVT status 50 40 (mds_char_uuid 0x05);
     ESP_GATTS_ADD_CHAR_DESCR_EVT status 51 40 cccd_uuid;
     ESP_GATTS_START_EVT status].

(** The globals once the service is built and started. *)
Definition built : globals :=
  final 3 (globals_init []) (build_trace ESP_GATT_OK).

(** Connection 1 enables notifications on the built service. *)
Definition subscribed_1 : globals :=
  final 3 built [(env_drained, ESP_GATTS_WRITE_EVT 1 7 51 [0x01; 0x00])].

Definition chunk8 : list Z := [0xA0; 0xA1; 0xA2; 0xA3; 0xA4; 0xA5; 0xA6; 0xA7].

(** The notification [send_chunk_notification] submits for the chunk [data]
    and the answer [ok] of the stack. *)
Definition notify_call (gatts_if : Z) (g : globals) (data : list Z) (ok : bool) : action :=
  esp_ble_gatts_send_indicate gatts_if (conn_id (mds_state g))
    (data_export_handle (mds_handles g))
    (size_t (1 + Z.of_nat (Datatypes.length data)))
    (payload_header (chunk_sequence (mds_state g)) 0 :: data)
    false ok.

(** A session that ran [session_trace] on the built service: the link
    negotiated an MTU of 185, connection 1 subscribed and started the export,
    one chunk was accepted, then the link became congested. *)
Definition session_trace : list delivery :=
  [(env_drained, ESP_GATTS_MTU_EVT 185);
   (env_drained, ESP_GATTS_WRITE_EVT 1 7 51 [0x01; 0x00]);
   (env_chunk chunk8 true, ESP_GATTS_WRITE_EVT 1 8 50 [0x01]);
   (env_drained, ESP_GATTS_CONGEST_EVT true)].

Definition in_session : globals := final 3 built session_trace.

(** Calls among which there is neither a submission nor an abort. *)
Definition quiet_calls (acts : list action) : Prop :=
  Forall (fun a => is_send a = false /\ is_abort a = false) acts.

(** A handled delivery submits at most one notification, and none unless
    it is a trigger. *)
Definition paced_by_trigger (r : handled) : Prop :=
  let '(g0, (_, ev), acts) := r in
  (count is_send acts <= if is_trigger g0 ev then 1 else 0)%nat.

(** The headers [l] are those of a counter that starts at [c] and advances
    by one, modulo 32, with each of them. *)
Fixpoint chain_from (c : Z) (l : list Z) : Prop :=
  match l with
  | [] => True
  | hd :: t => hd = c mod 32 /\ chain_from (c + 1) t
  end.

(** The service is built, connection 1 subscribes, then writes the export
    mode 1 twice; the packetizer has a chunk each time and the stack
    accepts both notifications. *)
Definition double_start_trace : list delivery :=
  build_trace ESP_GATT_OK ++
  [(env_drained, ESP_GATTS_WRITE_EVT 1 7 51 [0x01; 0x00]);
   (env_chunk chunk8 true, ESP_GATTS_WRITE_EVT 1 8 50 [0x01]);
   (env_chunk chunk8 true, ESP_GATTS_WRITE_EVT 1 9 50 [0x01])].

(** Forty confirmations in a row on a streaming session, each with a chunk
    the stack accepts. *)
Definition forty_chunks : list delivery :=
  (env_chunk chunk8 true, ESP_GATTS_WRITE_EVT 1 8 50 [0x01])
    :: repeat (env_chunk chunk8 true, ESP_GATTS_CONF_EVT 0) 39%nat.

(** ** Further observations and sample data *)

Definition is_start_advertising (a : action) : bool :=
  match a with esp_ble_gap_start_advertising => true | _ => false end.

Definition is_write_event (ev : gatts_event) : bool :=
  match ev with ESP_GATTS_WRITE_EVT _ _ _ _ => true | _ => false end.

Definition is_congest_event (ev : gatts_event) : bool :=
  match ev with ESP_GATTS_CONGEST_EVT _ => true | _ => false end.

(** Number of notifications the stack accepted along handled deliveries. *)
Definition accepted_in (l : list handled) : nat :=
  list_sum (map (fun r => count is_submitted (snd r)) l).

(** The session as the handler keeps it: the export mode is 0 or 1, and an
    unsubscribed session is idle and records the connection 0xFFFF. *)
Definition session_inv (g : globals) : Prop :=
  (export_mode (mds_state g) = 0 \/ export_mode (mds_state g) = 1)
  /\ (subscribed (mds_state g) = false ->
      export_mode (mds_state g) = 0 /\ conn_id (mds_state g) = 0xFFFF).

(** The confirmations of a stack that creates what the handler requests:
    registration with status [st0], then the service and the six attributes
    with status [st], each characteristic confirmation carrying the
    identifier that was requested and the handle the stack chose. *)
Definition build_confirmations (e : env_t) (st0 app_id st sh h1 h2 h3 h4 h5 hd : Z)
  : list delivery :=
  map (fun ev => (e, ev))
    [ESP_GATTS_REG_EVT st0 app_id;
     ESP_GATTS_CREATE_EVT st sh;
     ESP_GATTS_ADD_CHAR_EVT st h1 sh (mds_char_uuid 0x01);
     ESP_GATTS_ADD_CHAR_EVT st h2 sh (mds_char_uuid 0x02);
     ESP_GATTS_ADD_CHAR_EVT st h3 sh (mds_char_uuid 0x03);
     ESP_GATTS_ADD_CHAR_EVT st h4 sh (mds_char_uuid 0x04);
     ESP_GATTS_ADD_CHAR_EVT st h5 sh (mds_char_uuid 0x05);
     ESP_GATTS_ADD_CHAR_DESCR_EVT st hd sh
       (uuid_of_16 ESP_GATT_UUID_CHAR_CLIENT_CONFIG)].

(** The four read handles are pairwise distinct. *)
Definition read_handles_distinct (h : mds_handles_t) : Prop :=
  supported_features_handle h <> device_id_handle h
  /\ supported_features_handle h <> data_uri_handle h
  /\ supported_features_handle h <> auth_handle h
  /\ device_id_handle h <> data_uri_handle h
  /\ device_id_handle h <> auth_handle h
  /\ data_uri_handle h <> auth_handle h.

(** A response goes to the interface of the call and to the connection and
    transaction of the read or write request being handled. *)
Definition response_addressed (gatts_if : Z) (ev : gatts_event) (a : action) : Prop :=
  match a with
  | esp_ble_gatts_send_response gi cid tid _ _ =>
      gi = gatts_if
      /\ match ev with
         | ESP_GATTS_READ_EVT c t _ | ESP_GATTS_WRITE_EVT c t _ _ => cid = c /\ tid = t
         | _ => False
         end
  | _ => True
  end.


(** ** [update_data_uri] *)

Definition mds_data_uri_size : nat := 256.

Definition data_uri_format_prefix : string :=
  "https://chunks.memfault.com/api/v0/chunks/".

(** [snprintf(mds_data_uri, sizeof(mds_data_uri), "<prefix>%s", serial)]:
    the formatted text cut to the buffer size less the terminating NUL.
    [device_serial] is the serial's bytes before its NUL. *)
Definition update_data_uri (device_serial : list Z) : list Z :=
  firstn (mds_data_uri_size - 1)
    (bytes_of_string data_uri_format_prefix ++ device_serial).

(** ** [gap_event_handler] *)

Definition ESP_BT_STATUS_SUCCESS : Z := 0.

Inductive gap_event :=
| ESP_GAP_BLE_ADV_DATA_SET_COMPLETE_EVT
| ESP_GAP_BLE_SCAN_RSP_DATA_SET_COMPLETE_EVT
| ESP_GAP_BLE_ADV_START_COMPLETE_EVT (status : Z)
| ESP_GAP_BLE_ADV_STOP_COMPLETE_EVT (status : Z)
| ESP_GAP_BLE_OTHER_EVT.

Definition gap_event_handler (event : gap_event) : list action :=
  match event with
  | ESP_GAP_BLE_ADV_DATA_SET_COMPLETE_EVT
  | ESP_GAP_BLE_SCAN_RSP_DATA_SET_COMPLETE_EVT => [esp_ble_gap_start_advertising]
  | ESP_GAP_BLE_ADV_START_COMPLETE_EVT status =>
      if negb (status =? ESP_BT_STATUS_SUCCESS)
      then [esp_log LOGE "Advertising start failed"] else []
  | ESP_GAP_BLE_ADV_STOP_COMPLETE_EVT status =>
      if negb (status =? ESP_BT_STATUS_SUCCESS)
      then [esp_log LOGE "Advertising stop failed"]
      else [esp_log LOGI "Stop adv successfully"]
  | ESP_GAP_BLE_OTHER_EVT => []
  end.

(** ** [gatts_event_handler] *)

Definition PROFILE_NUM : Z := 1.
Definition ESP_GATT_IF_NONE : Z := 0xff.

(** The [gatts_if] fields of [gl_profile_tab], one per profile. *)
Definition gl_profile_tab_init : list Z := [ESP_GATT_IF_NONE].

Fixpoint store_at (i : nat) (v : Z) (tab : list Z) : list Z :=
  match tab, i with
  | [], _ => []
  | _ :: t, O => v :: t
  | x :: t, S j => x :: store_at j v t
  end.

(** [None] stands for the store [gl_profile_tab[app_id].gatts_if = gatts_if]
    falling outside the table. *)
Definition gatts_event_handler (e : env_t) (event : gatts_event) (gatts_if : Z)
    (tab : list Z) (g : globals) : option (list Z * (globals * list action)) :=
  let forward t := Some (t, gatts_profile_event_handler e event gatts_if g) in
  match event with
  | ESP_GATTS_REG_EVT status app_id =>
      if status =? ESP_GATT_OK then
        if (0 <=? app_id) && (app_id <? Z.of_nat (Datatypes.length tab)) then
          forward (store_at (Z.to_nat app_id) gatts_if tab)
        else None
      else forward tab
  | _ => forward tab
  end.


(** ** [app_main] and [initialize_console] *)

Definition ESP_OK : Z := 0.
Definition ESP_ERR_NVS_NO_FREE_PAGES : Z := 0x110d.
Definition ESP_ERR_NVS_NEW_VERSION_FOUND : Z := 0x1110.

(** The call sites of [app_main] and [initialize_console], in the order of
    the source. [nvs_flash_init] has two of them and
    [esp_ble_gap_config_adv_data] one per advertising structure. *)
Inductive boot_call :=
| memfault_boot
| memfault_device_info_dump
| update_data_uri_call
| nvs_flash_init
| nvs_flash_erase
| nvs_flash_init_again
| esp_bt_controller_mem_release
| esp_bt_controller_init
| esp_bt_controller_enable
| esp_bluedroid_init
| esp_bluedroid_enable
| esp_ble_gatts_register_callback
| esp_ble_gap_register_callback
| esp_ble_gap_set_device_name
| esp_ble_gap_config_adv_data (set_scan_rsp : bool)
| esp_ble_gatts_app_register (app_id : Z)
| setvbuf_stdin
| setvbuf_stdout
| uart_driver_install
| esp_vfs_dev_uart_use_driver
| esp_console_init
| linenoiseSetMultiLine
| linenoiseSetCompletionCallback
| linenoiseSetHintsCallback
| linenoiseHistorySetMaxLen
| esp_console_register_help_command
| xTaskCreate_console_task.

Inductive boot_item :=
| called (c : boot_call)
| logged_error (fmt : string).

(** How the bring-up ends: it ran to its last statement, it returned early
    after logging an error, or [ESP_ERROR_CHECK] aborted the program. *)
Inductive boot_end := boot_completed | boot_returned | boot_aborted.

(** A bring-up program: what it did, and how it ended if it did. *)
Definition boot : Type := list boot_item * option boot_end.

Definition boot_seq (a b : boot) : boot :=
  match snd a with
  | Some _ => a
  | None => (fst a ++ fst b, snd b)
  end.

(** A call whose result, if any, is not looked at. *)
Definition do_call (c : boot_call) : boot := ([called c], None).

(** [ESP_ERROR_CHECK(c(...))]. *)
Definition error_check (res : boot_call -> Z) (c : boot_call) : boot :=
  ([called c], if res c =? ESP_OK then None else Some boot_aborted).

(** [ret = c(...); if (ret) { ESP_LOGE(...); return; }]. *)
Definition or_return (res : boot_call -> Z) (c : boot_call) (fmt : string) : boot :=
  if res c =? 0 then ([called c], None)
  else ([called c; logged_error fmt], Some boot_returned).

(** Reaching the last statement completes the bring-up. *)
Definition end_of (b : boot) : boot_end :=
  match snd b with Some x => x | None => boot_completed end.

Definition initialize_console (res : boot_call -> Z) : boot :=
  boot_seq (do_call setvbuf_stdin)
  (boot_seq (do_call setvbuf_stdout)
  (boot_seq (error_check res uart_driver_install)
  (boot_seq (do_call esp_vfs_dev_uart_use_driver)
  (boot_seq (error_check res esp_console_init)
  (boot_seq (do_call linenoiseSetMultiLine)
  (boot_seq (do_call linenoiseSetCompletionCallback)
  (boot_seq (do_call linenoiseSetHintsCallback)
            (do_call linenoiseHistorySetMaxLen)))))))).

(** The NVS initialisation of [app_main], with its erase-and-retry. *)
Definition init_nvs (res : boot_call -> Z) : boot :=
  let ret := res nvs_flash_init in
  if (ret =? ESP_ERR_NVS_NO_FREE_PAGES) || (ret =? ESP_ERR_NVS_NEW_VERSION_FOUND) then
    boot_seq (do_call nvs_flash_init)
    (boot_seq (error_check res nvs_flash_erase)
              (error_check res nvs_flash_init_again))
  else error_check res nvs_flash_init.

Definition app_main (res : boot_call -> Z) : list boot_item * boot_end :=
  let b :=
    boot_seq (do_call memfault_boot)
    (boot_seq (do_call memfault_device_info_dump)
    (boot_seq (do_call update_data_uri_call)
    (boot_seq (init_nvs res)
    (boot_seq (error_check res esp_bt_controller_mem_release)
    (boot_seq (or_return res esp_bt_controller_init
                 "%s initialize controller failed: %s")
    (boot_seq (or_return res esp_bt_controller_enable
                 "%s enable controller failed: %s")
    (boot_seq (or_return res esp_bluedroid_init "%s init bluetooth failed: %s")
    (boot_seq (or_return res esp_bluedroid_enable "%s enable bluetooth failed: %s")
    (boot_seq (or_return res esp_ble_gatts_register_callback
                 "gatts register error, error code = %x")
    (boot_seq (or_return res esp_ble_gap_register_callback
                 "gap register error, error code = %x")
    (boot_seq (or_return res esp_ble_gap_set_device_name
                 "set device name failed, error code = %x")
    (boot_seq (or_return res (esp_ble_gap_config_adv_data false)
                 "config adv data failed, error code = %x")
    (boot_seq (or_return res (esp_ble_gap_config_adv_data true)
                 "config scan response data failed, error code = %x")
    (boot_seq (or_return res (esp_ble_gatts_app_register PROFILE_APP_ID)
                 "gatts app register error, error code = %x")
    (boot_seq (initialize_console res)
    (boot_seq (do_call esp_console_register_help_command)
              (do_call xTaskCreate_console_task))))))))))))))))) in
  (fst b, end_of b).

(** The results with which NVS comes up: at once, or after an erase that
    the first result asks for. *)
Definition nvs_comes_up (res : boot_call -> Z) : Prop :=
  res nvs_flash_init = ESP_OK
  \/ ((res nvs_flash_init = ESP_ERR_NVS_NO_FREE_PAGES
       \/ res nvs_flash_init = ESP_ERR_NVS_NEW_VERSION_FOUND)
      /\ res nvs_flash_erase = ESP_OK /\ res nvs_flash_init_again = ESP_OK).

(** The results with which the Bluetooth stack comes up to the point of
    registering the application. *)
Definition ble_comes_up (res : boot_call -> Z) : Prop :=
  res esp_bt_controller_mem_release = ESP_OK
  /\ res esp_bt_controller_init = 0
  /\ res esp_bt_controller_enable = 0
  /\ res esp_bluedroid_init = 0
  /\ res esp_bluedroid_enable = 0
  /\ res esp_ble_gatts_register_callback = 0
  /\ res esp_ble_gap_register_callback = 0
  /\ res esp_ble_gap_set_device_name = 0
  /\ res (esp_ble_gap_config_adv_data false) = 0
  /\ res (esp_ble_gap_config_adv_data true) = 0.


(** * Properties *)

(** ** Arithmetic of the frame header and of the CCCD value *)

Lemma payload_header_rfu0 (c : Z) : payload_header c 0 = c mod 32.
Proof.
  unfold payload_header.
  change (Z.shiftl (0 mod 2 ^ 3) 5) with 0.
  rewrite Z.lor_0_r. reflexivity.
Qed.

Lemma next_sequence (c : Z) :
  uint8_t (Z.land (c + 1) 0x1F) = (c + 1) mod 32.
Proof.
  unfold uint8_t.
  change 0x1F with (Z.ones 5). rewrite Z.land_ones by lia.
  change (2 ^ 5) with 32. change (2 ^ 8) with 256.
  pose proof (Z.mod_pos_bound (c + 1) 32 ltac:(lia)).
  apply Z.mod_small. lia.
Qed.

Lemma land_1_testbit (x : Z) : (Z.land x 0x0001 =? 0) = negb (Z.testbit x 0).
Proof.
  change 0x0001 with (Z.ones 1). rewrite Z.land_ones by lia.
  change (2 ^ 1) with 2. rewrite <- Z.bit0_mod.
  destruct (Z.testbit x 0); reflexivity.
Qed.


(** ** The chunk export engine declines silently *)

(** C8. [send_chunk_notification] makes no call at all (no notification, no
    log entry) and leaves the globals as they are when the session is not
    subscribed, or the export mode is not 1, or the link is congested; and
    when the three hold, the buffer is granted and the packetizer reports no
    data, it sets the export mode to 0, touches no other field and sends
    nothing. *)
Theorem send_chunk_notification_declines (e : env_t) (gatts_if : Z) (g : globals) :
  (subscribed (mds_state g) = false \/ export_mode (mds_state g) <> 0x01
   \/ congested (mds_state g) = true ->
   send_chunk_notification e gatts_if g = (g, []))
  /\
  (subscribed (mds_state g) = true -> export_mode (mds_state g) = 0x01 ->
   congested (mds_state g) = false ->
   malloc e (size_t (1 + size_t (mtu (mds_state g) - 4))) = true ->
   memfault_packetizer_get_chunk e (size_t (mtu (mds_state g) - 4)) = None ->
   send_chunk_notification e gatts_if g =
     (with_state g (set_export_mode 0 (mds_state g)),
      [esp_log LOGI "No more chunks available"])
   /\ count is_send (snd (send_chunk_notification e gatts_if g)) = 0%nat).
Proof.
  split.
  - intros H. unfold send_chunk_notification.
    destruct (subscribed (mds_state g)); cbn [negb orb].
    + destruct (Z.eqb_spec (export_mode (mds_state g)) 0x01) as [Heq | Hne];
        cbn [negb orb].
      * destruct (congested (mds_state g)); [reflexivity |].
        destruct H as [H | [H | H]]; congruence.
      * reflexivity.
    + reflexivity.
  - intros Hs Hm Hc Ha Hd. unfold send_chunk_notification.
    rewrite Hs, Hm, Hc, Ha, Hd. cbn. split; reflexivity.
Qed.

Lemma send_chunk_notification_declines_witness :
  send_chunk_notification env_drained 3 built = (built, [])
  /\ send_chunk_notification env_drained 3
       (with_state subscribed_1 (set_export_mode 1 (mds_state subscribed_1)))
     = (subscribed_1, [esp_log LOGI "No more chunks available"]).
Proof.
  split.
  - apply (proj1 (send_chunk_notification_declines env_drained 3 built)).
    left. reflexivity.
  - apply (proj2 (send_chunk_notification_declines env_drained 3
              (with_state subscribed_1 (set_export_mode 1 (mds_state subscribed_1)))));
      reflexivity.
Defined.

(** ** Writes to the DataExport characteristic *)

(** C6. A write to the DataExport handle is checked in this order: a
    payload that is not one byte long is answered 0x80; else an unsubscribed
    session is answered 0x82; else a byte other than 0 and 1 is answered
    [ESP_GATT_INVALID_PDU]; in these three cases the globals are unchanged.
    Otherwise the export mode becomes the written byte, the answer is
    [ESP_GATT_OK], and for the byte 1 [send_chunk_notification] runs on the
    updated globals. *)
Theorem data_export_write_validated (e : env_t) (gatts_if : Z) (g : globals)
    (cid trans_id : Z) (value : list Z) :
  let ev := ESP_GATTS_WRITE_EVT cid trans_id (data_export_handle (mds_handles g)) value in
  let entry := esp_log LOGI "GATT_WRITE_EVT, handle %d" in
  let answer st := esp_ble_gatts_send_response gatts_if cid trans_id st None in
  let streaming := with_state g (set_export_mode 1 (mds_state g)) in
  (Datatypes.length value <> 1%nat ->
   gatts_profile_event_handler e ev gatts_if g = (g, [entry; answer 0x80]))
  /\
  (Datatypes.length value = 1%nat -> subscribed (mds_state g) = false ->
   gatts_profile_event_handler e ev gatts_if g = (g, [entry; answer 0x82]))
  /\
  (Datatypes.length value = 1%nat -> subscribed (mds_state g) = true ->
   nth 0 value 0 <> 0 -> nth 0 value 0 <> 1 ->
   gatts_profile_event_handler e ev gatts_if g =
     (g, [entry; answer ESP_GATT_INVALID_PDU]))
  /\
  (Datatypes.length value = 1%nat -> subscribed (mds_state g) = true ->
   nth 0 value 0 = 0 ->
   gatts_profile_event_handler e ev gatts_if g =
     (with_state g (set_export_mode 0 (mds_state g)), [entry; answer ESP_GATT_OK]))
  /\
  (Datatypes.length value = 1%nat -> subscribed (mds_state g) = true ->
   nth 0 value 0 = 1 ->
   gatts_profile_event_handler e ev gatts_if g =
     (fst (send_chunk_notification e gatts_if streaming),
      entry :: answer ESP_GATT_OK
        :: snd (send_chunk_notification e gatts_if streaming))).
Proof.
  intros ev entry answer streaming.
  unfold ev, gatts_profile_event_handler. rewrite Z.eqb_refl.
  repeat split.
  - intros Hlen.
    destruct (Z.eqb_spec (Z.of_nat (Datatypes.length value)) 1) as [Heq | Hne];
      [lia | reflexivity].
  - intros Hlen Hs. rewrite Hlen, Hs. reflexivity.
  - intros Hlen Hs H0 H1. rewrite Hlen, Hs. cbn [Z.of_nat Pos.of_succ_nat Z.eqb Pos.eqb negb].
    destruct (Z.eqb_spec (nth 0 value 0) 0x00); [contradiction |].
    destruct (Z.eqb_spec (nth 0 value 0) 0x01); [contradiction |].
    reflexivity.
  - intros Hlen Hs H0. rewrite Hlen, Hs, H0. reflexivity.
  - intros Hlen Hs H1. rewrite Hlen, Hs, H1.
    cbn [Z.of_nat Pos.of_succ_nat Z.eqb Pos.eqb negb andb].
    fold streaming.
    destruct (send_chunk_notification e gatts_if streaming). reflexivity.
Qed.

Lemma data_export_write_validated_witness :
  let answer st := esp_ble_gatts_send_response 3 1 9 st None in
  let entry := esp_log LOGI "GATT_WRITE_EVT, handle %d" in
  gatts_profile_event_handler env_drained (ESP_GATTS_WRITE_EVT 1 9 50 [1; 0]) 3 subscribed_1
    = (subscribed_1, [entry; answer 0x80])
  /\ gatts_profile_event_handler env_drained (ESP_GATTS_WRITE_EVT 1 9 50 [1]) 3 built
    = (built, [entry; answer 0x82])
  /\ gatts_profile_event_handler env_drained (ESP_GATTS_WRITE_EVT 1 9 50 [2]) 3 subscribed_1
    = (subscribed_1, [entry; answer 0x04])
  /\ gatts_profile_event_handler env_drained (ESP_GATTS_WRITE_EVT 1 9 50 [0]) 3 subscribed_1
    = (subscribed_1, [entry; answer 0x00])
  /\ gatts_profile_event_handler (env_chunk chunk8 true) (ESP_GATTS_WRITE_EVT 1 9 50 [1]) 3
       subscribed_1
    = (with_state subscribed_1
         (mk_mds_state true 1 1 1 23 false),
       [entry; answer 0x00;
        esp_ble_gatts_send_indicate 3 1 50 9 (0x00 :: chunk8) false true;
        esp_log LOGI "Sent chunk %d, size %d"]).
Proof.
  intros answer entry.
  pose proof (data_export_write_validated env_drained 3 subscribed_1 1 9) as S.
  pose proof (data_export_write_validated env_drained 3 built 1 9 [1]) as B.
  pose proof (data_export_write_validated (env_chunk chunk8 true) 3 subscribed_1 1 9 [1]) as C.
  refine (conj _ (conj _ (conj _ (conj _ _)))).
  - apply (proj1 (S [1; 0])). cbn. lia.
  - apply (proj1 (proj2 B)); reflexivity.
  - apply (proj1 (proj2 (proj2 (S [2])))); cbn; try reflexivity; lia.
  - apply (proj1 (proj2 (proj2 (proj2 (S [0]))))); reflexivity.
  - apply (proj2 (proj2 (proj2 (proj2 C)))); reflexivity.
Defined.

(** ** Writes to the CCCD of DataExport *)

(** C10. A two-byte CCCD write whose little-endian value has bit 0 clear is
    answered [ESP_GATT_OK] whoever writes it, also a connection other than
    the recorded subscriber: the session becomes unsubscribed, the recorded
    connection becomes 0xFFFF and the export mode 0; the other session
    fields keep their values. *)
Theorem cccd_disable_write_resets (e : env_t) (gatts_if : Z) (g : globals)
    (cid trans_id : Z) (value : list Z) :
  data_export_cccd_handle (mds_handles g) <> data_export_handle (mds_handles g) ->
  Datatypes.length value = 2%nat ->
  Z.testbit (cccd_descr_value value) 0 = false ->
  gatts_profile_event_handler e
    (ESP_GATTS_WRITE_EVT cid trans_id (data_export_cccd_handle (mds_handles g)) value)
    gatts_if g
  = (with_state g
       (mk_mds_state false 0xFFFF 0 (chunk_sequence (mds_state g))
          (mtu (mds_state g)) (congested (mds_state g))),
     [esp_log LOGI "GATT_WRITE_EVT, handle %d";
      esp_ble_gatts_send_response gatts_if cid trans_id ESP_GATT_OK None]).
Proof.
  intros Hh Hlen Hbit. unfold gatts_profile_event_handler.
  destruct (Z.eqb_spec (data_export_cccd_handle (mds_handles g))
              (data_export_handle (mds_handles g))); [contradiction |].
  rewrite Z.eqb_refl, Hlen, land_1_testbit, Hbit. reflexivity.
Qed.

Lemma cccd_disable_write_resets_witness :
  gatts_profile_event_handler env_drained (ESP_GATTS_WRITE_EVT 2 11 51 [0x00; 0x00]) 3
    (with_state subscribed_1 (mk_mds_state true 1 1 5 185 false))
  = (with_state subscribed_1 (mk_mds_state false 0xFFFF 0 5 185 false),
     [esp_log LOGI "GATT_WRITE_EVT, handle %d";
      esp_ble_gatts_send_response 3 2 11 0 None]).
Proof.
  apply (cccd_disable_write_resets env_drained 3
           (with_state subscribed_1 (mk_mds_state true 1 1 5 185 false))
           2 11 [0x00; 0x00]).
  - cbn. lia.
  - reflexivity.
  - reflexivity.
Defined.

(** C5. With a subscriber recorded, a two-byte CCCD write whose
    little-endian value has bit 0 set is answered 0x81 and changes nothing
    when it comes from another connection, and is answered [ESP_GATT_OK]
    and changes nothing when it comes from the subscriber itself. The
    session has one [conn_id] field, so one subscriber at most is recorded. *)
Theorem cccd_enable_write_single_subscriber (e : env_t) (gatts_if : Z) (g : globals)
    (cid trans_id : Z) (value : list Z) :
  data_export_cccd_handle (mds_handles g) <> data_export_handle (mds_handles g) ->
  Datatypes.length value = 2%nat ->
  Z.testbit (cccd_descr_value value) 0 = true ->
  subscribed (mds_state g) = true ->
  gatts_profile_event_handler e
    (ESP_GATTS_WRITE_EVT cid trans_id (data_export_cccd_handle (mds_handles g)) value)
    gatts_if g
  = (g, [esp_log LOGI "GATT_WRITE_EVT, handle %d";
         esp_ble_gatts_send_response gatts_if cid trans_id
           (if conn_id (mds_state g) =? cid then ESP_GATT_OK else 0x81) None]).
Proof.
  intros Hh Hlen Hbit Hs. unfold gatts_profile_event_handler.
  destruct (Z.eqb_spec (data_export_cccd_handle (mds_handles g))
              (data_export_handle (mds_handles g))); [contradiction |].
  rewrite Z.eqb_refl, Hlen, land_1_testbit, Hbit, Hs.
  cbn [Z.of_nat Pos.of_succ_nat Z.eqb Pos.eqb negb andb].
  destruct (Z.eqb_spec (conn_id (mds_state g)) cid) as [Heq | Hne]; cbn [negb].
  - subst cid. destruct g as [ph sid uri [sub c m sq mt cg] hs].
    cbn in Hs. subst sub. reflexivity.
  - reflexivity.
Qed.

Lemma cccd_enable_write_single_subscriber_witness :
  gatts_profile_event_handler env_drained (ESP_GATTS_WRITE_EVT 2 11 51 [0x01; 0x00]) 3
    subscribed_1
  = (subscribed_1,
     [esp_log LOGI "GATT_WRITE_EVT, handle %d";
      esp_ble_gatts_send_response 3 2 11 0x81 None])
  /\
  gatts_profile_event_handler env_drained (ESP_GATTS_WRITE_EVT 1 12 51 [0x01; 0x00]) 3
    subscribed_1
  = (subscribed_1,
     [esp_log LOGI "GATT_WRITE_EVT, handle %d";
      esp_ble_gatts_send_response 3 1 12 0x00 None]).
Proof.
  split.
  - apply (cccd_enable_write_single_subscriber env_drained 3 subscribed_1 2 11
             [0x01; 0x00]); try reflexivity.
    cbn. lia.
  - apply (cccd_enable_write_single_subscriber env_drained 3 subscribed_1 1 12
             [0x01; 0x00]); try reflexivity.
    cbn. lia.
Defined.

(** ** Writes to any other handle *)

(** C9 (what the code does). A write to a handle that is neither the
    DataExport handle nor its CCCD handle leaves the globals unchanged and
    makes one call only, the log entry of the write: no response is sent. *)
Theorem write_to_other_handle_unanswered (e : env_t) (gatts_if : Z) (g : globals)
    (cid trans_id handle : Z) (value : list Z) :
  handle <> data_export_handle (mds_handles g) ->
  handle <> data_export_cccd_handle (mds_handles g) ->
  gatts_profile_event_handler e (ESP_GATTS_WRITE_EVT cid trans_id handle value)
    gatts_if g
  = (g, [esp_log LOGI "GATT_WRITE_EVT, handle %d"])
  /\ count is_response
       (snd (gatts_profile_event_handler e
               (ESP_GATTS_WRITE_EVT cid trans_id handle value) gatts_if g)) = 0%nat.
Proof.
  intros H1 H2. unfold gatts_profile_event_handler.
  destruct (Z.eqb_spec handle (data_export_handle (mds_handles g))); [contradiction |].
  destruct (Z.eqb_spec handle (data_export_cccd_handle (mds_handles g)));
    [contradiction |].
  split; reflexivity.
Qed.

Lemma write_to_other_handle_unanswered_witness :
  gatts_profile_event_handler env_drained (ESP_GATTS_WRITE_EVT 1 9 42 [0x01]) 3 subscribed_1
  = (subscribed_1, [esp_log LOGI "GATT_WRITE_EVT, handle %d"]).
Proof.
  apply (write_to_other_handle_unanswered env_drained 3 subscribed_1 1 9 42 [0x01]);
    cbn; lia.
Defined.

(** ** Disconnection *)

(** What [ESP_GATTS_DISCONNECT_EVT] does: it clears the subscription
    ([subscribed], [conn_id], [export_mode]), keeps [chunk_sequence], [mtu]
    and [congested], and restarts advertising. *)
Lemma disconnect_clears_subscription (e : env_t) (gatts_if : Z) (g : globals) (reason : Z) :
  gatts_profile_event_handler e (ESP_GATTS_DISCONNECT_EVT reason) gatts_if g
  = (with_state g
       (mk_mds_state false 0xFFFF 0 (chunk_sequence (mds_state g))
          (mtu (mds_state g)) (congested (mds_state g))),
     [esp_log LOGI "ESP_GATTS_DISCONNECT_EVT, reason = 0x%x";
      esp_ble_gap_start_advertising]).
Proof. reflexivity. Qed.

(** C3 (what the code does). After the session [in_session], a disconnect
    leaves the sequence counter at 1, the MTU at 185 and the congestion flag
    set: the session is not back at [mds_state_init]. *)
Theorem disconnect_keeps_sequence_mtu_congestion :
  mds_state in_session = mk_mds_state true 1 1 1 185 true
  /\ mds_state
       (fst (gatts_profile_event_handler env_drained (ESP_GATTS_DISCONNECT_EVT 0x13) 3
               in_session))
     = mk_mds_state false 0xFFFF 0 1 185 true
  /\ mds_state
       (fst (gatts_profile_event_handler env_drained (ESP_GATTS_DISCONNECT_EVT 0x13) 3
               in_session))
     <> mds_state_init.
Proof.
  split; [reflexivity | split; [reflexivity | discriminate]].
Qed.

(** ** The build sequence *)

(** C4, as stated, fails: when every creation confirmation carries the
    status 0x85, the handler still requests each next attribute and, on the
    descriptor confirmation, the start of the service. *)
Lemma build_continues_after_failed_confirmation :
  build_stops false (run 3 (globals_init []) (build_trace 0x85)) = false
  /\ existsb is_start_service
       (flat_map (fun r => snd r) (run 3 (globals_init []) (build_trace 0x85))) = true.
Proof. split; reflexivity. Qed.

(** C4 (amended). The handler treats a creation confirmation the same
    whatever status it carries: the status is logged and nothing else, and
    there is no failed state. Besides the log entry, the service-created
    confirmation makes one call, the request for the first characteristic
    (role 1, read-only) on the confirmed service handle; a
    characteristic-added confirmation with role byte 1, 2 or 3 requests the
    read-only characteristic of the next role, with role byte 4 the
    write-and-notify DataExport characteristic (role 5), with role byte 5
    the readable and writable CCCD descriptor, and with any other role byte
    nothing; and the descriptor-added confirmation requests the start of
    the service. *)
Theorem creation_confirmation_ignores_status (e : env_t) (gatts_if : Z) (g : globals)
    (st st' attr_handle service_handle : Z) (u : esp_bt_uuid_t) :
  gatts_profile_event_handler e (ESP_GATTS_CREATE_EVT st service_handle) gatts_if g
  = gatts_profile_event_handler e (ESP_GATTS_CREATE_EVT st' service_handle) gatts_if g
  /\ gatts_profile_event_handler e
       (ESP_GATTS_ADD_CHAR_EVT st attr_handle service_handle u) gatts_if g
     = gatts_profile_event_handler e
         (ESP_GATTS_ADD_CHAR_EVT st' attr_handle service_handle u) gatts_if g
  /\ gatts_profile_event_handler e
       (ESP_GATTS_ADD_CHAR_DESCR_EVT st attr_handle service_handle u) gatts_if g
     = gatts_profile_event_handler e
         (ESP_GATTS_ADD_CHAR_DESCR_EVT st' attr_handle service_handle u) gatts_if g
  /\ snd (gatts_profile_event_handler e
            (ESP_GATTS_CREATE_EVT st service_handle) gatts_if g)
     = [esp_log LOGI "CREATE_SERVICE_EVT, status %d, service_handle %d";
        esp_ble_gatts_add_char service_handle (mds_char_uuid 0x01)
          ESP_GATT_PERM_READ ESP_GATT_CHAR_PROP_BIT_READ]
  /\ snd (gatts_profile_event_handler e
            (ESP_GATTS_ADD_CHAR_EVT st attr_handle service_handle u) gatts_if g)
     = esp_log LOGI "ADD_CHAR_EVT, status %d, attr_handle %d, service_handle %d"
       :: (if (1 <=? role_byte u) && (role_byte u <=? 3) then
             [esp_ble_gatts_add_char (profile_handle g)
                (mds_char_uuid (role_byte u + 1))
                ESP_GATT_PERM_READ ESP_GATT_CHAR_PROP_BIT_READ]
           else if role_byte u =? 4 then
             [esp_ble_gatts_add_char (profile_handle g) (mds_char_uuid 0x05)
                ESP_GATT_PERM_WRITE
                (Z.lor ESP_GATT_CHAR_PROP_BIT_WRITE ESP_GATT_CHAR_PROP_BIT_NOTIFY)]
           else if role_byte u =? 5 then
             [esp_ble_gatts_add_char_descr (profile_handle g)
                (uuid_of_16 ESP_GATT_UUID_CHAR_CLIENT_CONFIG)
                (Z.lor ESP_GATT_PERM_READ ESP_GATT_PERM_WRITE)]
           else [])
  /\ snd (gatts_profile_event_handler e
            (ESP_GATTS_ADD_CHAR_DESCR_EVT st attr_handle service_handle u) gatts_if g)
     = [esp_log LOGI "ADD_DESCR_EVT, status %d, attr_handle %d, service_handle %d";
        esp_ble_gatts_start_service (profile_handle g)].
Proof.
  repeat (split; [reflexivity |]).
  split; [| reflexivity].
  cbn [gatts_profile_event_handler snd]. f_equal. unfold add_next_attribute.
  destruct (Z.eqb_spec (role_byte u) 0x01) as [-> | N1]; [reflexivity |].
  destruct (Z.eqb_spec (role_byte u) 0x02) as [-> | N2]; [reflexivity |].
  destruct (Z.eqb_spec (role_byte u) 0x03) as [-> | N3]; [reflexivity |].
  destruct (Z.leb_spec 1 (role_byte u)); cbn [andb];
    [destruct (Z.leb_spec (role_byte u) 3); [lia |] |];
    destruct (Z.eqb_spec (role_byte u) 4); try reflexivity;
    destruct (Z.eqb_spec (role_byte u) 5); reflexivity.
Qed.

(** ** The outcomes of [send_chunk_notification] *)

Lemma send_chunk_notification_cases (e : env_t) (gatts_if : Z) (g : globals) :
  let r := send_chunk_notification e gatts_if g in
  let n := size_t (mtu (mds_state g) - 4) in
  r = (g, [])
  \/ r = (g, [esp_log LOGE "Failed to allocate notification buffer"])
  \/ r = (with_state g (set_export_mode 0 (mds_state g)),
          [esp_log LOGI "No more chunks available"])
  \/ exists data,
       malloc e (size_t (1 + n)) = true
       /\ memfault_packetizer_get_chunk e n = Some data
       /\ (r = (g, [notify_call gatts_if g data false;
                    esp_log LOGE "Failed to send notification: %d";
                    memfault_packetizer_abort])
           \/ r = (with_state g
                     (set_chunk_sequence ((chunk_sequence (mds_state g) + 1) mod 32)
                        (mds_state g)),
                   [notify_call gatts_if g data true;
                    esp_log LOGI "Sent chunk %d, size %d"])).
Proof.
  intros r n. subst r n. unfold send_chunk_notification.
  destruct (negb (subscribed (mds_state g))
            || negb (export_mode (mds_state g) =? 0x01)
            || congested (mds_state g)); [left; reflexivity |].
  destruct (malloc e (size_t (1 + size_t (mtu (mds_state g) - 4)))) eqn:Hm;
    cbn [negb]; [| right; left; reflexivity].
  destruct (memfault_packetizer_get_chunk e (size_t (mtu (mds_state g) - 4)))
    as [data |] eqn:Hd; [| right; right; left; reflexivity].
  right; right; right. exists data. split; [reflexivity | split; [reflexivity |]].
  destruct (send_indicate_ok e); cbn [negb].
  - right. rewrite next_sequence. reflexivity.
  - left. reflexivity.
Qed.

(** ** Shape of the handler's calls *)

(** Either the delivery submits nothing, aborts nothing and keeps the
    sequence counter, or it is a trigger and its calls end with the calls of
    one submission of a chunk the packetizer supplied for the session's MTU. *)
Ltac quiet_list := solve [unfold quiet_calls; cbn [snd]; repeat constructor].
Ltac quiet_split := split; [quiet_list | reflexivity].
Ltac quiet_case := left; quiet_split.

Lemma handler_shape (e : env_t) (ev : gatts_event) (gatts_if : Z) (g : globals) :
  let r := gatts_profile_event_handler e ev gatts_if g in
  let n := size_t (mtu (mds_state g) - 4) in
  (quiet_calls (snd r)
   /\ chunk_sequence (mds_state (fst r)) = chunk_sequence (mds_state g))
  \/ (is_trigger g ev = true
      /\ exists pre data,
           quiet_calls pre
           /\ malloc e (size_t (1 + n)) = true
           /\ memfault_packetizer_get_chunk e n = Some data
           /\ ((snd r = pre ++ [notify_call gatts_if g data false;
                                esp_log LOGE "Failed to send notification: %d";
                                memfault_packetizer_abort]
                /\ chunk_sequence (mds_state (fst r)) = chunk_sequence (mds_state g))
               \/ (snd r = pre ++ [notify_call gatts_if g data true;
                                   esp_log LOGI "Sent chunk %d, size %d"]
                   /\ chunk_sequence (mds_state (fst r))
                      = (chunk_sequence (mds_state g) + 1) mod 32))).
Proof.
  intros r n. subst r n.
  destruct ev; cbn [gatts_profile_event_handler is_trigger];
    try (quiet_case).
  - (* ADD_CHAR *)
    left. unfold add_next_attribute.
    repeat match goal with
           | |- context [if ?c then _ else _] => destruct c
           end; quiet_split.
  - (* READ *)
    left. destruct (read_value g handle); quiet_split.
  - (* WRITE *)
    destruct (handle =? data_export_handle (mds_handles g)).
    + destruct (Z.of_nat (Datatypes.length value) =? 1); cbn [negb andb];
        [| quiet_case].
      destruct (subscribed (mds_state g)); cbn [negb andb];
        [| quiet_case].
      destruct (Z.eqb_spec (nth 0 value 0) 0x01) as [H1 | H1].
      * rewrite H1. cbn [Z.eqb negb andb].
        pose proof (send_chunk_notification_cases e gatts_if
                      (with_state g (set_export_mode 1 (mds_state g)))) as C.
        cbv zeta in C.
        destruct (send_chunk_notification e gatts_if
                    (with_state g (set_export_mode 1 (mds_state g)))) as [g2 acts].
        destruct C as [C | [C | [C | (data & Hm & Hd & [C | C])]]];
          inversion C; subst g2 acts; clear C;
          try (quiet_case).
        -- right. split; [reflexivity |].
           exists [esp_log LOGI "GATT_WRITE_EVT, handle %d";
                   esp_ble_gatts_send_response gatts_if cid trans_id ESP_GATT_OK None],
             data.
           split; [quiet_list |].
           split; [exact Hm | split; [exact Hd |]].
           left. split; reflexivity.
        -- right. split; [reflexivity |].
           exists [esp_log LOGI "GATT_WRITE_EVT, handle %d";
                   esp_ble_gatts_send_response gatts_if cid trans_id ESP_GATT_OK None],
             data.
           split; [quiet_list |].
           split; [exact Hm | split; [exact Hd |]].
           right. split; reflexivity.
      * left. destruct (nth 0 value 0 =? 0x00); cbn [negb andb]; quiet_split.
    + left.
      repeat match goal with
             | |- context [if ?c then _ else _] => destruct c
             end; quiet_split.
  - (* CONF *)
    destruct (export_mode (mds_state g) =? 0x01);
      [| quiet_case].
    pose proof (send_chunk_notification_cases e gatts_if g) as C. cbv zeta in C.
    destruct (send_chunk_notification e gatts_if g) as [g2 acts].
    destruct C as [C | [C | [C | (data & Hm & Hd & [C | C])]]];
      inversion C; subst g2 acts; clear C;
      try (quiet_case).
    + right. split; [reflexivity |]. exists [], data.
      split; [quiet_list |]. split; [exact Hm | split; [exact Hd |]].
      left. split; reflexivity.
    + right. split; [reflexivity |]. exists [], data.
      split; [quiet_list |]. split; [exact Hm | split; [exact Hd |]].
      right. split; reflexivity.
  - (* START *)
    destruct (status =? ESP_GATT_OK); quiet_case.
  - (* CONGEST *)
    destruct c; cbn [negb andb];
      [quiet_case |].
    destruct (export_mode (mds_state g) =? 0x01);
      [| quiet_case].
    pose proof (send_chunk_notification_cases e gatts_if
                  (with_state g (set_congested false (mds_state g)))) as C.
    cbv zeta in C.
    destruct (send_chunk_notification e gatts_if
                (with_state g (set_congested false (mds_state g)))) as [g2 acts].
    destruct C as [C | [C | [C | (data & Hm & Hd & [C | C])]]];
      inversion C; subst g2 acts; clear C;
      try (quiet_case).
    + right. split; [reflexivity |].
      exists [esp_log LOGI "ESP_GATTS_CONGEST_EVT, congested: %d"], data.
      split; [quiet_list |]. split; [exact Hm | split; [exact Hd |]].
      left. split; reflexivity.
    + right. split; [reflexivity |].
      exists [esp_log LOGI "ESP_GATTS_CONGEST_EVT, congested: %d"], data.
      split; [quiet_list |]. split; [exact Hm | split; [exact Hd |]].
      right. split; reflexivity.
Qed.

(** ** Counting the calls *)

Lemma count_app (p : action -> bool) (l1 l2 : list action) :
  count p (l1 ++ l2) = (count p l1 + count p l2)%nat.
Proof. unfold count. rewrite filter_app, length_app. reflexivity. Qed.

Lemma submitted_headers_app (l1 l2 : list action) :
  submitted_headers (l1 ++ l2) = submitted_headers l1 ++ submitted_headers l2.
Proof. unfold submitted_headers. apply flat_map_app. Qed.

Lemma quiet_calls_counts (l : list action) :
  quiet_calls l ->
  count is_send l = 0%nat /\ count is_submitted l = 0%nat
  /\ count is_refused l = 0%nat /\ count is_abort l = 0%nat
  /\ submitted_headers l = [].
Proof.
  induction 1 as [| a l [Hs Ha] _ IH].
  - repeat split.
  - destruct IH as (I1 & I2 & I3 & I4 & I5).
    unfold count in *. cbn [filter submitted_headers flat_map].
    fold (submitted_headers l). rewrite Ha, I5.
    destruct a; cbn in Hs; try discriminate; cbn; auto.
Qed.

(** What one delivery does to the sequence counter and to the packetizer. *)
Lemma handler_summary (e : env_t) (ev : gatts_event) (gatts_if : Z) (g : globals) :
  let r := gatts_profile_event_handler e ev gatts_if g in
  let acts := snd r in
  let submitted := Nat.ltb 0 (count is_submitted acts) in
  (count is_send acts <= if is_trigger g ev then 1 else 0)%nat
  /\ count is_send acts = (count is_submitted acts + count is_refused acts)%nat
  /\ count is_abort acts = count is_refused acts
  /\ chunk_sequence (mds_state (fst r))
     = (if submitted then (chunk_sequence (mds_state g) + 1) mod 32
        else chunk_sequence (mds_state g))
  /\ submitted_headers acts
     = (if submitted then [chunk_sequence (mds_state g) mod 32] else []).
Proof.
  intros r acts submitted. subst submitted acts r.
  destruct (handler_shape e ev gatts_if g)
    as [[Hq Hseq] | [Ht (pre & data & Hq & _ & _ & [[Hacts Hseq] | [Hacts Hseq]])]].
  - destruct (quiet_calls_counts _ Hq) as (I1 & I2 & I3 & I4 & I5).
    rewrite I1, I2, I3, I4, I5, Hseq. cbn.
    repeat split. lia.
  - destruct (quiet_calls_counts _ Hq) as (I1 & I2 & I3 & I4 & I5).
    rewrite Ht, Hacts, Hseq, !count_app, submitted_headers_app, I1, I2, I3, I4, I5.
    cbn. repeat split. lia.
  - destruct (quiet_calls_counts _ Hq) as (I1 & I2 & I3 & I4 & I5).
    rewrite Ht, Hacts, Hseq, !count_app, submitted_headers_app, I1, I2, I3, I4, I5.
    cbn [app]. unfold notify_call. rewrite payload_header_rfu0.
    cbn. repeat split. lia.
Qed.

(** ** Pacing *)

(** C1, as stated, fails: two successive writes of the export mode 1 submit
    two notifications, with headers 0 and 1, and no confirmation, drain or
    congestion clearing between them. *)
Lemma two_starts_two_chunks_in_flight :
  single_in_flight false (run 3 (globals_init []) double_start_trace) = false
  /\ trace_headers (run 3 (globals_init []) double_start_trace) = [0; 1].
Proof. split; reflexivity. Qed.

(** C1 (amended). In every trace each delivery submits at most one
    notification, and submits none unless it is a trigger: a one-byte write
    of 1 to DataExport by a subscribed session, a confirmation while the
    export mode is 1, or a congestion clearing while the export mode is 1. *)
Theorem submissions_only_on_triggers (gatts_if : Z) (g : globals) (tr : list delivery) :
  Forall paced_by_trigger (run gatts_if g tr).
Proof.
  revert g. induction tr as [| [e ev] tr IH]; intros g; cbn [run].
  - constructor.
  - pose proof (handler_summary e ev gatts_if g) as S. cbv zeta in S.
    destruct (gatts_profile_event_handler e ev gatts_if g) as [g1 acts].
    constructor; [| apply IH].
    unfold paced_by_trigger. cbn [snd] in S. apply S.
Qed.

(** ** The sequence counter *)

Lemma chain_from_congr (l : list Z) (c c' : Z) :
  c mod 32 = c' mod 32 -> chain_from c l -> chain_from c' l.
Proof.
  revert c c'. induction l as [| hd t IH]; intros c c' Hc; cbn [chain_from].
  - trivial.
  - intros [Hh Ht]. split; [congruence |].
    apply (IH (c + 1) (c' + 1)); [| exact Ht].
    rewrite <- (Zplus_mod_idemp_l c), <- (Zplus_mod_idemp_l c'), Hc. reflexivity.
Qed.

Lemma chain_from_follows (l : list Z) (c : Z) : chain_from c l -> follows l = true.
Proof.
  revert c. induction l as [| a t IH]; intros c; [reflexivity |].
  destruct t as [| b t']; [reflexivity |].
  intros [Ha Ht]. change (follows (a :: b :: t'))
    with ((b =? (a + 1) mod 32) && follows (b :: t')).
  rewrite (IH (c + 1) Ht), andb_true_r.
  destruct Ht as [Hb _]. apply Z.eqb_eq.
  rewrite Hb, Ha, Zplus_mod_idemp_l. reflexivity.
Qed.

Lemma run_chain (gatts_if : Z) (tr : list delivery) (g : globals) :
  chain_from (chunk_sequence (mds_state g)) (trace_headers (run gatts_if g tr)).
Proof.
  revert g. induction tr as [| [e ev] tr IH]; intros g; cbn [run].
  - exact I.
  - pose proof (handler_summary e ev gatts_if g) as S. cbv zeta in S.
    destruct (gatts_profile_event_handler e ev gatts_if g) as [g1 acts].
    cbn [fst snd] in S. destruct S as (_ & _ & _ & Hseq & Hh).
    unfold trace_headers. cbn [flat_map snd]. fold (trace_headers (run gatts_if g1 tr)).
    rewrite Hh. specialize (IH g1). rewrite Hseq in IH.
    destruct (Nat.ltb 0 (count is_submitted acts)); cbn [app chain_from].
    + split; [reflexivity |].
      apply (chain_from_congr _ ((chunk_sequence (mds_state g) + 1) mod 32));
        [apply Zmod_mod | exact IH].
    + exact IH.
Qed.

(** C2. In every trace, from any globals, the headers of the notifications
    the stack accepted follow each other by plus one modulo 32. In every
    delivery at most one notification is submitted; the counter becomes
    (counter + 1) mod 32 when the stack accepted it and is unchanged
    otherwise; and [memfault_packetizer_abort] is called as many times as
    the stack refused a notification: once for a refused chunk, never
    otherwise. *)
Theorem sequence_counter_follows (gatts_if : Z) (g : globals) (tr : list delivery)
    (e : env_t) (ev : gatts_event) :
  follows (trace_headers (run gatts_if g tr)) = true
  /\
  let r := gatts_profile_event_handler e ev gatts_if g in
  let accepted := count is_submitted (snd r) in
  let refused := count is_refused (snd r) in
  (accepted + refused <= 1)%nat
  /\ chunk_sequence (mds_state (fst r))
     = (if Nat.ltb 0 accepted then (chunk_sequence (mds_state g) + 1) mod 32
        else chunk_sequence (mds_state g))
  /\ submitted_headers (snd r)
     = (if Nat.ltb 0 accepted then [chunk_sequence (mds_state g) mod 32] else [])
  /\ count is_abort (snd r) = refused.
Proof.
  split.
  - apply (chain_from_follows _ (chunk_sequence (mds_state g))), run_chain.
  - pose proof (handler_summary e ev gatts_if g) as S. cbv zeta in S |- *.
    destruct S as (Hle & Hsum & Hab & Hseq & Hh).
    split; [| split; [exact Hseq | split; [exact Hh | exact Hab]]].
    rewrite <- Hsum. destruct (is_trigger g ev); lia.
Qed.

(** Forty chunks in a row carry the headers 0 to 31 and then 0 to 7. *)
Example forty_chunks_wrap :
  trace_headers (run 3 subscribed_1 forty_chunks)
  = map Z.of_nat (seq 0 32) ++ map Z.of_nat (seq 0 8).
Proof. vm_compute. reflexivity. Qed.

(** A refused notification: the counter stays and the packetizer is told
    to abort once. *)
Example refused_chunk_aborts :
  let r := gatts_profile_event_handler (env_chunk chunk8 false)
             (ESP_GATTS_WRITE_EVT 1 8 50 [0x01]) 3 subscribed_1 in
  chunk_sequence (mds_state (fst r)) = 0
  /\ count is_abort (snd r) = 1%nat
  /\ count is_refused (snd r) = 1%nat.
Proof. repeat split. Qed.

(** ** Ranges of the session fields are kept *)

Lemma send_chunk_notification_keeps_mtu (e : env_t) (gatts_if : Z) (g : globals) :
  mtu (mds_state (fst (send_chunk_notification e gatts_if g))) = mtu (mds_state g).
Proof.
  pose proof (send_chunk_notification_cases e gatts_if g) as C. cbv zeta in C.
  destruct C as [C | [C | [C | (data & _ & _ & [C | C])]]]; rewrite C; reflexivity.
Qed.

Lemma handler_mtu (e : env_t) (ev : gatts_event) (gatts_if : Z) (g : globals) :
  mtu (mds_state (fst (gatts_profile_event_handler e ev gatts_if g)))
  = match ev with ESP_GATTS_MTU_EVT m => m | _ => mtu (mds_state g) end.
Proof.
  destruct ev; cbn [gatts_profile_event_handler]; try reflexivity.
  - destruct (read_value g handle); reflexivity.
  - repeat match goal with
           | |- context [if ?c then _ else _] => destruct c
           end; try reflexivity.
    pose proof (send_chunk_notification_keeps_mtu e gatts_if
                  (with_state g (set_export_mode (nth 0 value 0) (mds_state g)))) as K.
    destruct (send_chunk_notification e gatts_if
                (with_state g (set_export_mode (nth 0 value 0) (mds_state g)))).
    exact K.
  - destruct (export_mode (mds_state g) =? 0x01); [| reflexivity].
    apply send_chunk_notification_keeps_mtu.
  - destruct (status =? ESP_GATT_OK); reflexivity.
  - destruct (negb c && (export_mode (mds_state g) =? 0x01)); [| reflexivity].
    pose proof (send_chunk_notification_keeps_mtu e gatts_if
                  (with_state g (set_congested c (mds_state g)))) as K.
    destruct (send_chunk_notification e gatts_if
                (with_state g (set_congested c (mds_state g)))).
    exact K.
Qed.

(** The sequence counter stays a 5-bit value and the MTU a 16-bit value
    along every trace of well-typed events; they are so initially. *)
Lemma session_ranges_kept (gatts_if : Z) (tr : list delivery) (g : globals) :
  Forall (fun d => event_in_range (snd d)) tr ->
  sequence_in_range g -> mtu_in_range g ->
  sequence_in_range (final gatts_if g tr) /\ mtu_in_range (final gatts_if g tr).
Proof.
  revert g. induction tr as [| [e ev] tr IH]; intros g Hev Hs Hm; cbn [final].
  - split; assumption.
  - inversion Hev as [| d l Hd Hl]; subst. cbn [snd] in Hd.
    apply IH; [exact Hl | |].
    + pose proof (handler_summary e ev gatts_if g) as S. cbv zeta in S.
      destruct S as (_ & _ & _ & Hseq & _).
      unfold sequence_in_range in *. rewrite Hseq.
      destruct (Nat.ltb 0 _); [apply Z.mod_pos_bound; lia | exact Hs].
    + unfold mtu_in_range in *. rewrite handler_mtu.
      destruct ev; try exact Hm. exact Hd.
Qed.

Lemma session_ranges_initially (uri : list Z) :
  sequence_in_range (globals_init uri) /\ mtu_in_range (globals_init uri).
Proof. unfold sequence_in_range, mtu_in_range. cbn. lia. Qed.

(** ** Framing of the notifications *)

Lemma header_bits (c : Z) :
  0 <= c < 32 ->
  Z.land (payload_header c 0) 0x1F = c /\ Z.shiftr (payload_header c 0) 5 = 0.
Proof.
  intros Hc. rewrite payload_header_rfu0, (Z.mod_small c 32) by lia. split.
  - change 0x1F with (Z.ones 5). rewrite Z.land_ones by lia.
    apply Z.mod_small. change (2 ^ 5) with 32. lia.
  - rewrite Z.shiftr_div_pow2 by lia. apply Z.div_small.
    change (2 ^ 5) with 32. lia.
Qed.

Section Framing.

Variable e : env_t.
Variable gatts_if : Z.
Variable g : globals.

Hypothesis source_ok : source_contract e.
Hypothesis seq_ok : sequence_in_range g.
Hypothesis mtu_ok : mtu_in_range g.
Hypothesis alloc_ok : 4 <= mtu (mds_state g) \/ heap_contract e.

(** Once the buffer is granted, [max_chunk_size] is the MTU less 4. *)
Lemma granted_max_chunk_size :
  malloc e (size_t (1 + size_t (mtu (mds_state g) - 4))) = true ->
  4 <= mtu (mds_state g) /\ size_t (mtu (mds_state g) - 4) = mtu (mds_state g) - 4.
Proof.
  intros Hm. unfold mtu_in_range in mtu_ok.
  assert (H4 : 4 <= mtu (mds_state g)).
  { destruct alloc_ok as [H | H]; [exact H |].
    apply H in Hm. unfold size_t in Hm.
    destruct (Z_lt_le_dec (mtu (mds_state g)) 4) as [Hlt | Hge]; [| exact Hge].
    exfalso.
    replace ((mtu (mds_state g) - 4) mod 2 ^ 32)
      with (mtu (mds_state g) - 4 + 2 ^ 32) in Hm
      by (apply Z.mod_unique with (q := -1); lia).
    destruct (Z.eq_dec (mtu (mds_state g)) 3) as [E3 | N3].
    - rewrite E3 in Hm. cbn in Hm. lia.
    - rewrite Z.mod_small in Hm by lia. lia. }
  split; [exact H4 |]. unfold size_t. apply Z.mod_small. lia.
Qed.

(** C7. Every notification the handler submits, on any event, carries one
    header byte followed by the chunk's bytes; bits 0 to 4 of the header
    are the session's sequence counter, bits 5 to 7 are zero, and the
    chunk has at most MTU - 4 bytes. The session's counter and MTU are
    values of their C types, the packetizer respects the buffer length,
    and either the MTU is at least 4 or the allocator refuses the empty
    and the address-space-sized requests an MTU below 4 leads to. *)
Theorem notification_framing (ev : gatts_event) (a : action) :
  In a (snd (gatts_profile_event_handler e ev gatts_if g)) ->
  is_send a = true ->
  exists hdr data ok,
    a = esp_ble_gatts_send_indicate gatts_if (conn_id (mds_state g))
          (data_export_handle (mds_handles g))
          (1 + Z.of_nat (Datatypes.length data)) (hdr :: data) false ok
    /\ Z.land hdr 0x1F = chunk_sequence (mds_state g)
    /\ Z.shiftr hdr 5 = 0
    /\ Z.of_nat (Datatypes.length data) <= mtu (mds_state g) - 4.
Proof.
  intros Hin Hsend.
  assert (Hq : forall l, quiet_calls l -> In a l -> False).
  { intros l Hl Ha. unfold quiet_calls in Hl. rewrite Forall_forall in Hl.
    destruct (Hl a Ha) as [Hf _]. congruence. }
  destruct (handler_shape e ev gatts_if g)
    as [[Hquiet _] | [_ (pre & data & Hpre & Hm & Hd & Hacts)]].
  - exfalso. exact (Hq _ Hquiet Hin).
  - destruct (granted_max_chunk_size Hm) as [H4 Hn]. rewrite Hn in Hd.
    pose proof (source_ok _ _ Hd) as Hlen.
    destruct (header_bits _ seq_ok) as [Hlow Hhigh].
    unfold mtu_in_range in mtu_ok.
    assert (Hcall : exists ok, a = notify_call gatts_if g data ok).
    { destruct Hacts as [[Hacts _] | [Hacts _]]; rewrite Hacts in Hin;
        apply in_app_or in Hin; destruct Hin as [Hin | Hin];
        try (exfalso; exact (Hq _ Hpre Hin));
        assert (Hf : In a (filter is_send _)) by (apply filter_In; split; eassumption);
        unfold notify_call in Hf; cbn [filter is_send] in Hf;
        destruct Hf as [Hf | []].
      - exists false. symmetry. exact Hf.
      - exists true. symmetry. exact Hf. }
    destruct Hcall as [ok Ha].
    exists (payload_header (chunk_sequence (mds_state g)) 0), data, ok.
    split; [| split; [exact Hlow | split; [exact Hhigh | exact Hlen]]].
    rewrite Ha. unfold notify_call, size_t.
    rewrite Z.mod_small by lia. reflexivity.
Qed.

End Framing.

Lemma env_chunk_source_contract (data : list Z) (ok : bool) :
  source_contract (env_chunk data ok).
Proof.
  intros n d H. cbn in H.
  destruct (Z.leb_spec (Z.of_nat (Datatypes.length data)) n) as [Hle | Hgt];
    [| discriminate].
  injection H as <-. exact Hle.
Qed.

(** The example of an MTU of 23: one notification with header 0x00 and the
    eight bytes of the chunk. *)
Lemma notification_framing_witness :
  exists hdr data ok,
    esp_ble_gatts_send_indicate 3 1 50 9 (0x00 :: chunk8) false true
    = esp_ble_gatts_send_indicate 3 1 50 (1 + Z.of_nat (Datatypes.length data))
        (hdr :: data) false ok
    /\ Z.land hdr 0x1F = 0
    /\ Z.shiftr hdr 5 = 0
    /\ Z.of_nat (Datatypes.length data) <= 23 - 4.
Proof.
  apply (notification_framing (env_chunk chunk8 true) 3 subscribed_1
           (env_chunk_source_contract chunk8 true))
    with (ev := ESP_GATTS_WRITE_EVT 1 8 50 [0x01]).
  - unfold sequence_in_range. cbn. lia.
  - unfold mtu_in_range. cbn. lia.
  - left. cbn. lia.
  - cbn. right. right. left. reflexivity.
  - reflexivity.
Defined.

(** * Further properties of the handler *)

(** ** Outcomes of [send_chunk_notification], with its preconditions *)

Lemma send_chunk_notification_outcomes (e : env_t) (gatts_if : Z) (g : globals) :
  let r := send_chunk_notification e gatts_if g in
  let n := size_t (mtu (mds_state g) - 4) in
  ((subscribed (mds_state g) = false \/ export_mode (mds_state g) <> 1
    \/ congested (mds_state g) = true)
   /\ r = (g, []))
  \/ (subscribed (mds_state g) = true /\ export_mode (mds_state g) = 1
      /\ congested (mds_state g) = false
      /\ ((malloc e (size_t (1 + n)) = false
           /\ r = (g, [esp_log LOGE "Failed to allocate notification buffer"]))
          \/ (malloc e (size_t (1 + n)) = true
              /\ memfault_packetizer_get_chunk e n = None
              /\ r = (with_state g (set_export_mode 0 (mds_state g)),
                      [esp_log LOGI "No more chunks available"]))
          \/ exists data,
               malloc e (size_t (1 + n)) = true
               /\ memfault_packetizer_get_chunk e n = Some data
               /\ ((send_indicate_ok e = false
                    /\ r = (g, [notify_call gatts_if g data false;
                                esp_log LOGE "Failed to send notification: %d";
                                memfault_packetizer_abort]))
                   \/ (send_indicate_ok e = true
                       /\ r = (with_state g
                                 (set_chunk_sequence
                                    ((chunk_sequence (mds_state g) + 1) mod 32)
                                    (mds_state g)),
                               [notify_call gatts_if g data true;
                                esp_log LOGI "Sent chunk %d, size %d"]))))).
Proof.
  intros r n. subst r n. unfold send_chunk_notification.
  destruct (subscribed (mds_state g)); cbn [negb orb];
    [| left; split; [left; reflexivity | reflexivity]].
  destruct (Z.eqb_spec (export_mode (mds_state g)) 0x01) as [Hm | Hm]; cbn [negb orb];
    [| left; split; [right; left; exact Hm | reflexivity]].
  destruct (congested (mds_state g));
    [left; split; [right; right; reflexivity | reflexivity] |].
  right. repeat (split; [first [reflexivity | exact Hm] |]).
  destruct (malloc e (size_t (1 + size_t (mtu (mds_state g) - 4)))); cbn [negb];
    [| left; split; reflexivity].
  right.
  destruct (memfault_packetizer_get_chunk e (size_t (mtu (mds_state g) - 4)))
    as [data |]; [| left; repeat split].
  right. exists data. split; [reflexivity | split; [reflexivity |]].
  destruct (send_indicate_ok e); cbn [negb].
  - right. rewrite next_sequence. split; reflexivity.
  - left. split; reflexivity.
Qed.

Ltac chunk_outcomes e gi g1 :=
  let C := fresh "C" in
  pose proof (send_chunk_notification_outcomes e gi g1) as C; cbv zeta in C;
  destruct (send_chunk_notification e gi g1) as [? ?];
  destruct C as [[? C] | (? & ? & ? & [[? C] | [(? & ? & C) | (? & ? & ? & [[? C] | [? C]])]])];
  inversion C; subst; clear C.

(** Case analysis on the event, on every test of the handler and on the
    outcome of the chunk submission it may reach. *)
Ltac handler_cases e ev gi g :=
  destruct ev; cbn [gatts_profile_event_handler];
  repeat match goal with
         | |- context [match read_value ?g0 ?h with _ => _ end] =>
             destruct (read_value g0 h)
         | |- context [if ?c then _ else _] => destruct c eqn:?
         | |- context [send_chunk_notification e gi ?g1] => chunk_outcomes e gi g1
         end.

(** ** The build sequence fills the handle table *)

(** X1. When the stack confirms the registration, the service and the six
    attributes in the order they are requested, each confirmation carrying
    the requested identifier and a handle of the stack's choice, the handle
    table ends with exactly these handles and [profile_handle] with the
    service handle, whatever the statuses; the session is untouched. The
    requests issued are, in order: the service with 12 handles, the four
    read-only characteristics, the write-and-notify DataExport
    characteristic, its readable and writable CCCD, and the start. *)
Theorem build_sequence_fills_handle_table (e : env_t) (gatts_if : Z) (g : globals)
    (st0 app_id st sh h1 h2 h3 h4 h5 hd : Z) :
  let tr := build_confirmations e st0 app_id st sh h1 h2 h3 h4 h5 hd in
  let sid := mk_srvc_id true 0 (mk_uuid ESP_UUID_LEN_128 adv_service_uuid128) in
  final gatts_if g tr
  = mk_globals sh sid (mds_data_uri g) (mds_state g) (mk_mds_handles h1 h2 h3 h4 h5 hd)
  /\ filter is_build_request (flat_map (fun r => snd r) (run gatts_if g tr))
     = [esp_ble_gatts_create_service gatts_if sid 12;
        esp_ble_gatts_add_char sh (mds_char_uuid 0x01) ESP_GATT_PERM_READ
          ESP_GATT_CHAR_PROP_BIT_READ;
        esp_ble_gatts_add_char sh (mds_char_uuid 0x02) ESP_GATT_PERM_READ
          ESP_GATT_CHAR_PROP_BIT_READ;
        esp_ble_gatts_add_char sh (mds_char_uuid 0x03) ESP_GATT_PERM_READ
          ESP_GATT_CHAR_PROP_BIT_READ;
        esp_ble_gatts_add_char sh (mds_char_uuid 0x04) ESP_GATT_PERM_READ
          ESP_GATT_CHAR_PROP_BIT_READ;
        esp_ble_gatts_add_char sh (mds_char_uuid 0x05) ESP_GATT_PERM_WRITE
          (Z.lor ESP_GATT_CHAR_PROP_BIT_WRITE ESP_GATT_CHAR_PROP_BIT_NOTIFY);
        esp_ble_gatts_add_char_descr sh (uuid_of_16 ESP_GATT_UUID_CHAR_CLIENT_CONFIG)
          (Z.lor ESP_GATT_PERM_READ ESP_GATT_PERM_WRITE);
        esp_ble_gatts_start_service sh].
Proof. split; reflexivity. Qed.

(** ** Confirmations the handler does not recognise *)

(** X2. A characteristic-added confirmation whose role byte
    ([uuid128[12]]) is not 1 to 5 records no handle and requests nothing:
    the globals are unchanged and the build sequence does not advance. *)
Theorem add_char_unknown_role_stalls (e : env_t) (gatts_if : Z) (g : globals)
    (st attr_handle service_handle : Z) (u : esp_bt_uuid_t) :
  role_byte u < 1 \/ 5 < role_byte u ->
  gatts_profile_event_handler e
    (ESP_GATTS_ADD_CHAR_EVT st attr_handle service_handle u) gatts_if g
  = (g, [esp_log LOGI "ADD_CHAR_EVT, status %d, attr_handle %d, service_handle %d"]).
Proof.
  intros H. cbn [gatts_profile_event_handler].
  unfold record_char_handle, add_next_attribute.
  repeat match goal with
         | |- context [if ?x =? ?y then _ else _] =>
             destruct (Z.eqb_spec x y); [lia |]
         end.
  destruct g. reflexivity.
Qed.

Lemma add_char_unknown_role_stalls_witness :
  gatts_profile_event_handler env_drained
    (ESP_GATTS_ADD_CHAR_EVT 0 60 40 (uuid_of_16 0x2A00)) 3 built
  = (built, [esp_log LOGI "ADD_CHAR_EVT, status %d, attr_handle %d, service_handle %d"]).
Proof.
  apply (add_char_unknown_role_stalls env_drained 3 built 0 60 40 (uuid_of_16 0x2A00)).
  left. reflexivity.
Defined.

(** X3. A descriptor-added confirmation whose 16-bit identifier is not
    0x2902 leaves the CCCD handle as it was, and the service is started all
    the same. *)
Theorem add_descr_other_uuid_still_starts (e : env_t) (gatts_if : Z) (g : globals)
    (st attr_handle service_handle : Z) (u : esp_bt_uuid_t) :
  uuid16 u <> ESP_GATT_UUID_CHAR_CLIENT_CONFIG ->
  gatts_profile_event_handler e
    (ESP_GATTS_ADD_CHAR_DESCR_EVT st attr_handle service_handle u) gatts_if g
  = (g, [esp_log LOGI "ADD_DESCR_EVT, status %d, attr_handle %d, service_handle %d";
         esp_ble_gatts_start_service (profile_handle g)]).
Proof.
  intros H. cbn [gatts_profile_event_handler].
  destruct (Z.eqb_spec (uuid16 u) ESP_GATT_UUID_CHAR_CLIENT_CONFIG); [contradiction |].
  destruct g. reflexivity.
Qed.

Lemma add_descr_other_uuid_still_starts_witness :
  gatts_profile_event_handler env_drained
    (ESP_GATTS_ADD_CHAR_DESCR_EVT 0 60 40 (uuid_of_16 0x2901)) 3 built
  = (built, [esp_log LOGI "ADD_DESCR_EVT, status %d, attr_handle %d, service_handle %d";
             esp_ble_gatts_start_service 40]).
Proof.
  apply (add_descr_other_uuid_still_starts env_drained 3 built 0 60 40 (uuid_of_16 0x2901)).
  vm_compute. discriminate.
Defined.

(** ** What each event may change *)

(** X4. What an event may write: [mds_data_uri] is never written; the
    service id only by the registration confirmation; [profile_handle] only
    by the service-created confirmation; the handle table only by the
    characteristic- and descriptor-added confirmations; and the session
    ([mds_state]) only by writes, confirmations of notifications, MTU,
    disconnect and congestion events. *)
Theorem handler_frame (e : env_t) (ev : gatts_event) (gatts_if : Z) (g : globals) :
  let g' := fst (gatts_profile_event_handler e ev gatts_if g) in
  mds_data_uri g' = mds_data_uri g
  /\ match ev with
     | ESP_GATTS_REG_EVT _ _ => True
     | _ => service_id g' = service_id g
     end
  /\ match ev with
     | ESP_GATTS_CREATE_EVT _ _ => True
     | _ => profile_handle g' = profile_handle g
     end
  /\ match ev with
     | ESP_GATTS_ADD_CHAR_EVT _ _ _ _ | ESP_GATTS_ADD_CHAR_DESCR_EVT _ _ _ _ => True
     | _ => mds_handles g' = mds_handles g
     end
  /\ match ev with
     | ESP_GATTS_WRITE_EVT _ _ _ _ | ESP_GATTS_CONF_EVT _ | ESP_GATTS_MTU_EVT _
     | ESP_GATTS_DISCONNECT_EVT _ | ESP_GATTS_CONGEST_EVT _ => True
     | _ => mds_state g' = mds_state g
     end.
Proof.
  cbv zeta. handler_cases e ev gatts_if g; cbn; auto.
Qed.

(** ** Reads *)

(** X5. A read request never changes the globals and is answered exactly
    once, to the requesting connection and transaction: with [ESP_GATT_OK]
    and a value whose length field is the number of its bytes when the
    handle is one of the four readable characteristics, and with
    [ESP_GATT_INVALID_HANDLE] and no value otherwise (so also for the
    DataExport handle and its CCCD when they differ from the four). *)
Theorem read_answered_once (e : env_t) (gatts_if : Z) (g : globals)
    (cid trans_id handle : Z) :
  let h := mds_handles g in
  let known :=
    (handle =? supported_features_handle h) || (handle =? device_id_handle h)
    || (handle =? data_uri_handle h) || (handle =? auth_handle h) in
  exists status rsp,
    gatts_profile_event_handler e (ESP_GATTS_READ_EVT cid trans_id handle) gatts_if g
    = (g, [esp_log LOGI "GATT_READ_EVT, handle %d";
           esp_ble_gatts_send_response gatts_if cid trans_id status rsp])
    /\ (if known then
          status = ESP_GATT_OK
          /\ exists v, rsp = Some (mk_rsp handle (Z.of_nat (Datatypes.length v)) v)
        else status = ESP_GATT_INVALID_HANDLE /\ rsp = None).
Proof.
  cbv zeta. cbn [gatts_profile_event_handler]. unfold read_value.
  repeat match goal with
         | |- context [?x =? ?y] => destruct (x =? y)
         end; cbn [orb];
    eexists; eexists; (split; [reflexivity |]); try (split; reflexivity);
    (split; [reflexivity | eexists; reflexivity]).
Qed.

(** X6. When the four readable handles differ from each other, reading
    each returns its own value: the feature byte 0x00, the device id, the
    data URI held in [mds_data_uri], and the authorisation string. *)
Theorem read_returns_characteristic_value (e : env_t) (gatts_if : Z) (g : globals)
    (cid trans_id : Z) :
  read_handles_distinct (mds_handles g) ->
  let h := mds_handles g in
  let answer handle v :=
    (g, [esp_log LOGI "GATT_READ_EVT, handle %d";
         esp_ble_gatts_send_response gatts_if cid trans_id ESP_GATT_OK
           (Some (mk_rsp handle (Z.of_nat (Datatypes.length v)) v))]) in
  let read handle :=
    gatts_profile_event_handler e (ESP_GATTS_READ_EVT cid trans_id handle) gatts_if g in
  read (supported_features_handle h) = answer (supported_features_handle h) [0x00]
  /\ read (device_id_handle h)
     = answer (device_id_handle h) (bytes_of_string "ESP32-TEST-DEVICE")
  /\ read (data_uri_handle h) = answer (data_uri_handle h) (mds_data_uri g)
  /\ read (auth_handle h)
     = answer (auth_handle h)
         (bytes_of_string "Memfault-Project-Key:kWRfBKMZ9T5Mtw3yrzZBRIIGoTRBpr8V").
Proof.
  intros (D1 & D2 & D3 & D4 & D5 & D6). cbv zeta.
  cbn [gatts_profile_event_handler]. unfold read_value.
  rewrite !Z.eqb_refl.
  repeat match goal with
         | |- context [?x =? ?y] =>
             destruct (Z.eqb_spec x y); [congruence |]
         end.
  repeat split.
Qed.

Lemma read_returns_characteristic_value_witness :
  gatts_profile_event_handler env_drained (ESP_GATTS_READ_EVT 1 5 46) 3
    (with_handles (globals_init [0x68; 0x74]) (mds_handles built))
  = (with_handles (globals_init [0x68; 0x74]) (mds_handles built),
     [esp_log LOGI "GATT_READ_EVT, handle %d";
      esp_ble_gatts_send_response 3 1 5 0 (Some (mk_rsp 46 2 [0x68; 0x74]))]).
Proof.
  apply (read_returns_characteristic_value env_drained 3
           (with_handles (globals_init [0x68; 0x74]) (mds_handles built)) 1 5).
  unfold read_handles_distinct. cbn. lia.
Defined.

(** ** Responses *)

(** X7. The handler answers every read once, every write to the DataExport
    handle or to its CCCD handle once, and nothing else: other events, and
    writes to other handles, get no response. Every response goes to the
    interface of the call and to the connection and transaction of the
    request. *)
Theorem one_response_per_request (e : env_t) (ev : gatts_event) (gatts_if : Z)
    (g : globals) :
  let acts := snd (gatts_profile_event_handler e ev gatts_if g) in
  count is_response acts
  = match ev with
    | ESP_GATTS_READ_EVT _ _ _ => 1%nat
    | ESP_GATTS_WRITE_EVT _ _ handle _ =>
        if (handle =? data_export_handle (mds_handles g))
           || (handle =? data_export_cccd_handle (mds_handles g))
        then 1%nat else 0%nat
    | _ => 0%nat
    end
  /\ Forall (response_addressed gatts_if ev) acts.
Proof.
  cbv zeta. split.
  - handler_cases e ev gatts_if g; cbn [orb] in *; try discriminate; try reflexivity;
      unfold add_next_attribute;
      repeat match goal with
             | |- context [if ?c then _ else _] => destruct c
             end; reflexivity.
  - handler_cases e ev gatts_if g; cbn [snd]; unfold notify_call, add_next_attribute;
      repeat match goal with
             | |- context [if ?c then _ else _] => destruct c
             end;
      repeat (constructor; [cbn; auto |]); constructor.
Qed.

(** ** The session invariant *)

Lemma session_inv_step (e : env_t) (ev : gatts_event) (gatts_if : Z) (g : globals) :
  session_inv g -> session_inv (fst (gatts_profile_event_handler e ev gatts_if g)).
Proof.
  unfold session_inv. intros [Hm Hu].
  handler_cases e ev gatts_if g; cbn in *;
    repeat match goal with
           | H : negb _ = true |- _ => apply negb_true_iff in H
           | H : negb _ = false |- _ => apply negb_false_iff in H
           | H : _ && _ = true |- _ => apply andb_true_iff in H; destruct H
           | H : _ && _ = false |- _ => apply andb_false_iff in H
           | H : (_ =? _) = true |- _ => apply Z.eqb_eq in H
           | H : (_ =? _) = false |- _ => apply Z.eqb_neq in H
           end;
    solve [intuition (first [congruence | lia])].
Qed.

(** X8. On every state reached from the initial globals, by any trace and
    any answers of the collaborators, the export mode is 0 or 1, and an
    unsubscribed session has export mode 0 and records the connection
    0xFFFF. *)
Theorem session_invariant_kept (gatts_if : Z) (uri : list Z) (tr : list delivery) :
  session_inv (final gatts_if (globals_init uri) tr).
Proof.
  assert (G : forall g, session_inv g -> session_inv (final gatts_if g tr)).
  { induction tr as [| [e ev] tr IH]; intros g Hg; cbn [final]; [exact Hg |].
    apply IH, session_inv_step, Hg. }
  apply G. unfold session_inv. cbn. split; [left; reflexivity | intros _; split; reflexivity].
Qed.

Ltac bool_facts :=
  repeat match goal with
         | H : negb _ = true |- _ => apply negb_true_iff in H
         | H : negb _ = false |- _ => apply negb_false_iff in H
         | H : _ && _ = true |- _ => apply andb_true_iff in H; destruct H
         | H : _ && _ = false |- _ => apply andb_false_iff in H
         | H : (_ =? _) = true |- _ => apply Z.eqb_eq in H
         | H : (_ =? _) = false |- _ => apply Z.eqb_neq in H
         end.

(** ** When a notification is submitted *)

(** X9. A delivery that submits a notification was handled for a
    subscribed session, and leaves the session subscribed to the same
    connection, with export mode 1 and the link not congested. *)
Theorem submission_needs_streaming_session (e : env_t) (ev : gatts_event)
    (gatts_if : Z) (g : globals) :
  let r := gatts_profile_event_handler e ev gatts_if g in
  count is_send (snd r) <> 0%nat ->
  subscribed (mds_state g) = true
  /\ subscribed (mds_state (fst r)) = true
  /\ conn_id (mds_state (fst r)) = conn_id (mds_state g)
  /\ export_mode (mds_state (fst r)) = 1
  /\ congested (mds_state (fst r)) = false.
Proof.
  cbv zeta.
  handler_cases e ev gatts_if g; cbn in *; bool_facts;
    try (intros Hc; exfalso; apply Hc; reflexivity);
    try (unfold add_next_attribute;
         repeat match goal with
                | |- context [if ?c then _ else _] => destruct c
                end; intros Hc; exfalso; apply Hc; reflexivity);
    intros _; repeat split; congruence.
Qed.

Lemma submission_needs_streaming_session_witness :
  let r := gatts_profile_event_handler (env_chunk chunk8 true)
             (ESP_GATTS_WRITE_EVT 2 8 50 [0x01]) 3 subscribed_1 in
  subscribed (mds_state subscribed_1) = true
  /\ subscribed (mds_state (fst r)) = true
  /\ conn_id (mds_state (fst r)) = 1
  /\ export_mode (mds_state (fst r)) = 1
  /\ congested (mds_state (fst r)) = false.
Proof.
  apply (submission_needs_streaming_session (env_chunk chunk8 true)
           (ESP_GATTS_WRITE_EVT 2 8 50 [0x01]) 3 subscribed_1).
  cbn. discriminate.
Defined.

(** ** An idle export stays silent *)

Lemma idle_step (e : env_t) (ev : gatts_event) (gatts_if : Z) (g : globals) :
  export_mode (mds_state g) <> 1 -> is_write_event ev = false ->
  export_mode (mds_state (fst (gatts_profile_event_handler e ev gatts_if g))) <> 1
  /\ count is_send (snd (gatts_profile_event_handler e ev gatts_if g)) = 0%nat.
Proof.
  intros Hm Hw.
  handler_cases e ev gatts_if g; cbn in *; bool_facts; try discriminate;
    try contradiction; unfold add_next_attribute;
    repeat match goal with
           | |- context [if ?c then _ else _] => destruct c
           end;
    solve [intuition (first [congruence | lia | reflexivity])].
Qed.

(** X10. While the export mode is not 1, a trace without write events
    submits no notification and never brings the export mode to 1: neither
    confirmations nor congestion clearings restart an idle export. *)
Theorem idle_export_stays_silent (gatts_if : Z) (g : globals) (tr : list delivery) :
  export_mode (mds_state g) <> 1 ->
  Forall (fun d => is_write_event (snd d) = false) tr ->
  Forall (fun r => count is_send (snd r) = 0%nat) (run gatts_if g tr)
  /\ export_mode (mds_state (final gatts_if g tr)) <> 1.
Proof.
  revert g. induction tr as [| [e ev] tr IH]; intros g Hm Hw; cbn [run final].
  - split; [constructor | exact Hm].
  - inversion Hw as [| d l Hd Hl]; subst. cbn [snd] in Hd.
    destruct (idle_step e ev gatts_if g Hm Hd) as [Hm' Hs].
    destruct (gatts_profile_event_handler e ev gatts_if g) as [g1 acts].
    cbn [fst snd] in *. destruct (IH g1 Hm' Hl) as [IH1 IH2].
    split; [constructor; [exact Hs | exact IH1] | exact IH2].
Qed.

Lemma idle_export_stays_silent_witness :
  Forall (fun r => count is_send (snd r) = 0%nat)
    (run 3 subscribed_1
       [(env_chunk chunk8 true, ESP_GATTS_CONF_EVT 0);
        (env_chunk chunk8 true, ESP_GATTS_CONGEST_EVT false);
        (env_chunk chunk8 true, ESP_GATTS_MTU_EVT 185)])
  /\ export_mode
       (mds_state
          (final 3 subscribed_1
             [(env_chunk chunk8 true, ESP_GATTS_CONF_EVT 0);
              (env_chunk chunk8 true, ESP_GATTS_CONGEST_EVT false);
              (env_chunk chunk8 true, ESP_GATTS_MTU_EVT 185)])) <> 1.
Proof.
  apply (idle_export_stays_silent 3 subscribed_1).
  - cbn. discriminate.
  - repeat constructor.
Defined.

(** ** Congestion pauses the export *)

Lemma congested_step (e : env_t) (ev : gatts_event) (gatts_if : Z) (g : globals) :
  congested (mds_state g) = true -> is_congest_event ev = false ->
  congested (mds_state (fst (gatts_profile_event_handler e ev gatts_if g))) = true
  /\ count is_send (snd (gatts_profile_event_handler e ev gatts_if g)) = 0%nat.
Proof.
  intros Hc Hw.
  handler_cases e ev gatts_if g; cbn in *; bool_facts; try discriminate;
    try contradiction; unfold add_next_attribute;
    repeat match goal with
           | |- context [if ?c then _ else _] => destruct c
           end;
    solve [intuition (first [congruence | lia | reflexivity])].
Qed.

(** X11. While the link is marked congested, a trace without congestion
    events submits no notification and leaves the mark set: writes of the
    export mode and confirmations do not get around the congestion. *)
Theorem congestion_pauses_export (gatts_if : Z) (g : globals) (tr : list delivery) :
  congested (mds_state g) = true ->
  Forall (fun d => is_congest_event (snd d) = false) tr ->
  Forall (fun r => count is_send (snd r) = 0%nat) (run gatts_if g tr)
  /\ congested (mds_state (final gatts_if g tr)) = true.
Proof.
  revert g. induction tr as [| [e ev] tr IH]; intros g Hm Hw; cbn [run final].
  - split; [constructor | exact Hm].
  - inversion Hw as [| d l Hd Hl]; subst. cbn [snd] in Hd.
    destruct (congested_step e ev gatts_if g Hm Hd) as [Hm' Hs].
    destruct (gatts_profile_event_handler e ev gatts_if g) as [g1 acts].
    cbn [fst snd] in *. destruct (IH g1 Hm' Hl) as [IH1 IH2].
    split; [constructor; [exact Hs | exact IH1] | exact IH2].
Qed.

Lemma congestion_pauses_export_witness :
  Forall (fun r => count is_send (snd r) = 0%nat)
    (run 3 in_session
       [(env_chunk chunk8 true, ESP_GATTS_CONF_EVT 0);
        (env_chunk chunk8 true, ESP_GATTS_WRITE_EVT 1 9 50 [0x01])])
  /\ congested
       (mds_state
          (final 3 in_session
             [(env_chunk chunk8 true, ESP_GATTS_CONF_EVT 0);
              (env_chunk chunk8 true, ESP_GATTS_WRITE_EVT 1 9 50 [0x01])])) = true.
Proof.
  apply (congestion_pauses_export 3 in_session).
  - reflexivity.
  - repeat constructor.
Defined.

(** ** The counter counts the accepted notifications *)

(** X12. Along any trace the sequence counter advances, modulo 32, by the
    number of notifications the stack accepted: nothing else moves it, not
    an unsubscription, a disconnect or a drained export. *)
Theorem counter_counts_accepted (gatts_if : Z) (g : globals) (tr : list delivery) :
  chunk_sequence (mds_state (final gatts_if g tr)) mod 32
  = (chunk_sequence (mds_state g) + Z.of_nat (accepted_in (run gatts_if g tr))) mod 32.
Proof.
  revert g. induction tr as [| [e ev] tr IH]; intros g; cbn [run final].
  - unfold accepted_in. cbn. rewrite Z.add_0_r. reflexivity.
  - pose proof (handler_summary e ev gatts_if g) as S. cbv zeta in S.
    destruct (gatts_profile_event_handler e ev gatts_if g) as [g1 acts].
    cbn [fst snd] in *. destruct S as (Hle & Hsum & _ & Hseq & _).
    rewrite IH, Hseq. unfold accepted_in. cbn [map list_sum snd].
    fold (accepted_in (run gatts_if g1 tr)).
    assert (Hc : (count is_submitted acts <= 1)%nat)
      by (destruct (is_trigger g ev); lia).
    destruct (count is_submitted acts) as [| [| n]]; cbn [Nat.ltb Nat.leb]; [| | lia].
    + reflexivity.
    + unfold accepted_in, list_sum. cbn [fold_right].
      rewrite Zplus_mod_idemp_l. f_equal. lia.
Qed.

(** X13. On every state reached from the initial globals the sequence
    counter is a 5-bit value, 0 to 31. *)
Theorem sequence_counter_is_5_bit (gatts_if : Z) (uri : list Z) (tr : list delivery) :
  0 <= chunk_sequence (mds_state (final gatts_if (globals_init uri) tr)) < 32.
Proof.
  assert (G : forall g, 0 <= chunk_sequence (mds_state g) < 32 ->
                        0 <= chunk_sequence (mds_state (final gatts_if g tr)) < 32).
  { induction tr as [| [e ev] tr IH]; intros g Hg; cbn [final]; [exact Hg |].
    apply IH. pose proof (handler_summary e ev gatts_if g) as S. cbv zeta in S.
    destruct S as (_ & _ & _ & Hseq & _). rewrite Hseq.
    destruct (Nat.ltb 0 _); [apply Z.mod_pos_bound; lia | exact Hg]. }
  apply G. cbn. lia.
Qed.

(** ** More on CCCD writes *)

Lemma cccd_bit0 (value : list Z) :
  Z.testbit (cccd_descr_value value) 0 = Z.odd (nth 0 value 0).
Proof.
  unfold cccd_descr_value, uint16_t.
  rewrite Z.mod_pow2_bits_low by lia.
  rewrite Z.lor_spec, Z.shiftl_spec_low by lia.
  apply Z.bit0_odd.
Qed.

(** X14. A CCCD write whose payload is not two bytes long is answered 0x80
    and changes nothing. *)
Theorem cccd_write_wrong_length (e : env_t) (gatts_if : Z) (g : globals)
    (cid trans_id : Z) (value : list Z) :
  data_export_cccd_handle (mds_handles g) <> data_export_handle (mds_handles g) ->
  Datatypes.length value <> 2%nat ->
  gatts_profile_event_handler e
    (ESP_GATTS_WRITE_EVT cid trans_id (data_export_cccd_handle (mds_handles g)) value)
    gatts_if g
  = (g, [esp_log LOGI "GATT_WRITE_EVT, handle %d";
         esp_ble_gatts_send_response gatts_if cid trans_id 0x80 None]).
Proof.
  intros Hh Hlen. cbn [gatts_profile_event_handler].
  destruct (Z.eqb_spec (data_export_cccd_handle (mds_handles g))
              (data_export_handle (mds_handles g))); [contradiction |].
  rewrite Z.eqb_refl.
  destruct (Z.eqb_spec (Z.of_nat (Datatypes.length value)) 2); [lia | reflexivity].
Qed.

Lemma cccd_write_wrong_length_witness :
  gatts_profile_event_handler env_drained (ESP_GATTS_WRITE_EVT 1 7 51 [0x01]) 3 built
  = (built, [esp_log LOGI "GATT_WRITE_EVT, handle %d";
             esp_ble_gatts_send_response 3 1 7 0x80 None]).
Proof.
  apply (cccd_write_wrong_length env_drained 3 built 1 7 [0x01]); cbn; lia.
Defined.

(** X15. On an unsubscribed session a two-byte CCCD write with an odd first
    byte subscribes the writer: the session records the writer's connection,
    keeps its other fields, and the answer is [ESP_GATT_OK]. *)
Theorem first_subscription_records_writer (e : env_t) (gatts_if : Z) (g : globals)
    (cid trans_id : Z) (value : list Z) :
  data_export_cccd_handle (mds_handles g) <> data_export_handle (mds_handles g) ->
  Datatypes.length value = 2%nat ->
  Z.odd (nth 0 value 0) = true ->
  subscribed (mds_state g) = false ->
  gatts_profile_event_handler e
    (ESP_GATTS_WRITE_EVT cid trans_id (data_export_cccd_handle (mds_handles g)) value)
    gatts_if g
  = (with_state g
       (mk_mds_state true cid (export_mode (mds_state g))
          (chunk_sequence (mds_state g)) (mtu (mds_state g))
          (congested (mds_state g))),
     [esp_log LOGI "GATT_WRITE_EVT, handle %d";
      esp_ble_gatts_send_response gatts_if cid trans_id ESP_GATT_OK None]).
Proof.
  intros Hh Hlen Hbit Hs. cbn [gatts_profile_event_handler].
  destruct (Z.eqb_spec (data_export_cccd_handle (mds_handles g))
              (data_export_handle (mds_handles g))); [contradiction |].
  rewrite Z.eqb_refl, Hlen, land_1_testbit, cccd_bit0, Hbit, Hs. reflexivity.
Qed.

Lemma first_subscription_records_writer_witness :
  gatts_profile_event_handler env_drained (ESP_GATTS_WRITE_EVT 4 7 51 [0x03; 0x00]) 3 built
  = (with_state built (mk_mds_state true 4 0 0 23 false),
     [esp_log LOGI "GATT_WRITE_EVT, handle %d";
      esp_ble_gatts_send_response 3 4 7 0 None]).
Proof.
  apply (first_subscription_records_writer env_drained 3 built 4 7 [0x03; 0x00]);
    try reflexivity.
  cbn. lia.
Defined.

(** X16. Of the two bytes of a CCCD write only bit 0 of the first counts:
    two writes whose first bytes have the same parity are handled alike, so
    the indication bit and the second byte are ignored (a write of 0x0002
    unsubscribes like a write of 0x0000). *)
Theorem cccd_only_bit0_of_first_byte (e : env_t) (gatts_if : Z) (g : globals)
    (cid trans_id : Z) (b0 b1 c0 c1 : Z) :
  data_export_cccd_handle (mds_handles g) <> data_export_handle (mds_handles g) ->
  Z.odd b0 = Z.odd c0 ->
  gatts_profile_event_handler e
    (ESP_GATTS_WRITE_EVT cid trans_id (data_export_cccd_handle (mds_handles g)) [b0; b1])
    gatts_if g
  = gatts_profile_event_handler e
      (ESP_GATTS_WRITE_EVT cid trans_id (data_export_cccd_handle (mds_handles g)) [c0; c1])
      gatts_if g.
Proof.
  intros Hh Hodd. cbn [gatts_profile_event_handler].
  destruct (Z.eqb_spec (data_export_cccd_handle (mds_handles g))
              (data_export_handle (mds_handles g))); [contradiction |].
  rewrite Z.eqb_refl. cbn [Datatypes.length Z.of_nat Pos.of_succ_nat Z.eqb Pos.eqb negb].
  rewrite !land_1_testbit, !cccd_bit0. cbn [nth]. rewrite Hodd. reflexivity.
Qed.

Lemma cccd_only_bit0_of_first_byte_witness :
  gatts_profile_event_handler env_drained (ESP_GATTS_WRITE_EVT 1 7 51 [0x02; 0x00]) 3
    subscribed_1
  = gatts_profile_event_handler env_drained (ESP_GATTS_WRITE_EVT 1 7 51 [0x00; 0xFF]) 3
      subscribed_1.
Proof.
  apply (cccd_only_bit0_of_first_byte env_drained 3 subscribed_1 1 7 0x02 0x00 0x00 0xFF).
  - cbn. lia.
  - reflexivity.
Defined.

(** X17. Subscribing and unsubscribing is a round trip: from an unsubscribed
    idle session that records 0xFFFF, an enabling CCCD write followed by a
    disabling one, from the same or another connection, gives back the
    very same globals. *)
Theorem subscribe_unsubscribe_round_trip (e1 e2 : env_t) (gatts_if : Z) (g : globals)
    (cid cid' t1 t2 : Z) (on off : list Z) :
  data_export_cccd_handle (mds_handles g) <> data_export_handle (mds_handles g) ->
  subscribed (mds_state g) = false ->
  export_mode (mds_state g) = 0 ->
  conn_id (mds_state g) = 0xFFFF ->
  Datatypes.length on = 2%nat -> Z.odd (nth 0 on 0) = true ->
  Datatypes.length off = 2%nat -> Z.odd (nth 0 off 0) = false ->
  let h := data_export_cccd_handle (mds_handles g) in
  final gatts_if g
    [(e1, ESP_GATTS_WRITE_EVT cid t1 h on); (e2, ESP_GATTS_WRITE_EVT cid' t2 h off)]
  = g.
Proof.
  intros Hh Hs Hm Hc Lon Bon Loff Boff. cbv zeta. cbn [final].
  assert (H1 : gatts_profile_event_handler e1
                 (ESP_GATTS_WRITE_EVT cid t1 (data_export_cccd_handle (mds_handles g)) on)
                 gatts_if g
               = (with_state g
                    (mk_mds_state true cid 0 (chunk_sequence (mds_state g))
                       (mtu (mds_state g)) (congested (mds_state g))),
                  [esp_log LOGI "GATT_WRITE_EVT, handle %d";
                   esp_ble_gatts_send_response gatts_if cid t1 ESP_GATT_OK None])).
  { cbn [gatts_profile_event_handler].
    destruct (Z.eqb_spec (data_export_cccd_handle (mds_handles g))
                (data_export_handle (mds_handles g))); [contradiction |].
    rewrite Z.eqb_refl, Lon, land_1_testbit, cccd_bit0, Bon, Hs.
    destruct g as [ph sid uri [sub c m sq mt cg] hs]. cbn in *. subst. reflexivity. }
  rewrite H1.
  cbn [fst gatts_profile_event_handler with_state mds_handles mds_state].
  destruct (Z.eqb_spec (data_export_cccd_handle (mds_handles g))
              (data_export_handle (mds_handles g))); [contradiction |].
  rewrite Z.eqb_refl, Loff, land_1_testbit, cccd_bit0, Boff.
  cbn. destruct g as [ph sid uri [sub c m sq mt cg] hs]. cbn in *. subst. reflexivity.
Qed.

Lemma subscribe_unsubscribe_round_trip_witness :
  final 3 built
    [(env_drained, ESP_GATTS_WRITE_EVT 1 7 51 [0x01; 0x00]);
     (env_drained, ESP_GATTS_WRITE_EVT 2 8 51 [0x00; 0x00])]
  = built.
Proof.
  apply (subscribe_unsubscribe_round_trip env_drained env_drained 3 built 1 2 7 8
           [0x01; 0x00] [0x00; 0x00]); try reflexivity.
  cbn. lia.
Defined.

(** ** The writer of the export mode is not checked *)

(** X18. A write to the DataExport handle is not checked against the
    subscriber: the new globals and the notification submitted are the same
    whichever connection and transaction wrote; only the response is
    addressed to the writer. *)
Theorem export_mode_write_ignores_writer (e : env_t) (gatts_if : Z) (g : globals)
    (cid tid cid' tid' : Z) (value : list Z) :
  let h := data_export_handle (mds_handles g) in
  let r := gatts_profile_event_handler e (ESP_GATTS_WRITE_EVT cid tid h value) gatts_if g in
  let r' := gatts_profile_event_handler e (ESP_GATTS_WRITE_EVT cid' tid' h value) gatts_if g in
  fst r = fst r' /\ filter is_send (snd r) = filter is_send (snd r').
Proof.
  cbv zeta. cbn [gatts_profile_event_handler]. rewrite Z.eqb_refl.
  repeat match goal with
         | |- context [if ?c then _ else _] => destruct c
         end; try (split; reflexivity).
  destruct (send_chunk_notification e gatts_if
              (with_state g (set_export_mode (nth 0 value 0) (mds_state g)))).
  split; reflexivity.
Qed.

(** ** Advertising *)

(** X19. Advertising is started by the GATT handler on a disconnect, once,
    and on no other event; and by the GAP handler once on each of the
    advertising-data and scan-response-data set-complete events, and not on
    a completed or failed start or stop of the advertising. *)
Theorem advertising_started_on (e : env_t) (ev : gatts_event) (gatts_if : Z)
    (g : globals) (gev : gap_event) :
  count is_start_advertising (snd (gatts_profile_event_handler e ev gatts_if g))
  = match ev with ESP_GATTS_DISCONNECT_EVT _ => 1%nat | _ => 0%nat end
  /\ count is_start_advertising (gap_event_handler gev)
     = match gev with
       | ESP_GAP_BLE_ADV_DATA_SET_COMPLETE_EVT
       | ESP_GAP_BLE_SCAN_RSP_DATA_SET_COMPLETE_EVT => 1%nat
       | _ => 0%nat
       end.
Proof.
  split.
  - handler_cases e ev gatts_if g; try reflexivity.
    unfold add_next_attribute.
    repeat match goal with
           | |- context [if ?c then _ else _] => destruct c
           end; reflexivity.
  - destruct gev; cbn [gap_event_handler]; try reflexivity;
      destruct (negb (status =? ESP_BT_STATUS_SUCCESS)); reflexivity.
Qed.

(** ** [gatts_event_handler] *)

(** X20. [gatts_event_handler] hands every event to the profile handler,
    whose globals and calls are its own. It stores the interface in the
    profile table only on a registration with status [ESP_GATT_OK], at the
    index of the application id, leaving the other entries; that store falls
    outside the table exactly when the id is not an index of it. A failed
    registration leaves the table as it is, and the service creation is
    requested nevertheless. *)
Theorem gatts_event_handler_forwards (e : env_t) (ev : gatts_event) (gatts_if : Z)
    (tab : list Z) (g : globals) :
  match gatts_event_handler e ev gatts_if tab g with
  | Some (tab', r) =>
      r = gatts_profile_event_handler e ev gatts_if g
      /\ Datatypes.length tab' = Datatypes.length tab
      /\ match ev with
         | ESP_GATTS_REG_EVT status app_id =>
             if status =? ESP_GATT_OK
             then forall i,
                    nth i tab' ESP_GATT_IF_NONE
                    = if Nat.eqb i (Z.to_nat app_id) then gatts_if
                      else nth i tab ESP_GATT_IF_NONE
             else tab' = tab
                  /\ In (esp_ble_gatts_create_service gatts_if
                           (mk_srvc_id true 0 (mk_uuid ESP_UUID_LEN_128 adv_service_uuid128))
                           12) (snd r)
         | _ => tab' = tab
         end
  | None =>
      exists status app_id,
        ev = ESP_GATTS_REG_EVT status app_id /\ status = ESP_GATT_OK
        /\ (app_id < 0 \/ Z.of_nat (Datatypes.length tab) <= app_id)
  end.
Proof.
  assert (L : forall i v t, Datatypes.length (store_at i v t) = Datatypes.length t).
  { intros i v t. revert i. induction t as [| x t IH]; intros [| i]; cbn; auto. }
  assert (N : forall t i v d, (i < Datatypes.length t)%nat -> nth i (store_at i v t) d = v).
  { induction t as [| x t IH]; intros [| i] v d Hi; cbn in *; try lia; auto.
    apply IH. lia. }
  assert (O : forall t i j v d, j <> i -> nth j (store_at i v t) d = nth j t d).
  { induction t as [| x t IH]; intros [| i] [| j] v d Hi; cbn in *;
      try reflexivity; try contradiction. apply IH. congruence. }
  destruct ev; cbn [gatts_event_handler]; try (repeat split; reflexivity).
  destruct (Z.eqb_spec status ESP_GATT_OK) as [Hs | Hs].
  - destruct (Z.leb_spec 0 app_id); cbn [andb].
    + destruct (Z.ltb_spec app_id (Z.of_nat (Datatypes.length tab))).
      * split; [reflexivity |]. split; [apply L |].
        intros i. destruct (Nat.eqb_spec i (Z.to_nat app_id)) as [-> | Hi];
          [apply N; lia | apply O; exact Hi].
      * exists status, app_id. repeat split; auto.
    + exists status, app_id. repeat split; auto.
  - split; [reflexivity |]. split; [reflexivity |]. split; [reflexivity |].
    cbn. right. left. reflexivity.
Qed.

(** ** The data URI *)

(** X21. [update_data_uri] produces at most 255 bytes, always beginning
    with the 42 bytes of the chunks URL; a serial of up to 213 bytes is
    appended whole, a longer one is cut to its first 213 bytes. *)
Theorem update_data_uri_fits (device_serial : list Z) :
  (Datatypes.length (update_data_uri device_serial) <= 255)%nat
  /\ firstn 42 (update_data_uri device_serial) = bytes_of_string data_uri_format_prefix
  /\ ((Datatypes.length device_serial <= 213)%nat ->
      update_data_uri device_serial
      = bytes_of_string data_uri_format_prefix ++ device_serial)
  /\ ((213 < Datatypes.length device_serial)%nat ->
      update_data_uri device_serial
      = bytes_of_string data_uri_format_prefix ++ firstn 213 device_serial).
Proof.
  unfold update_data_uri.
  assert (P : Datatypes.length (bytes_of_string data_uri_format_prefix) = 42%nat)
    by reflexivity.
  change (mds_data_uri_size - 1)%nat with 255%nat.
  split; [rewrite length_firstn; lia |].
  split.
  { rewrite firstn_firstn. change (Nat.min 42 255) with 42%nat.
    rewrite firstn_app, P. change (42 - 42)%nat with 0%nat.
    rewrite firstn_O, app_nil_r. apply firstn_all2. rewrite P. lia. }
  split.
  - intros H. apply firstn_all2. rewrite length_app, P. lia.
  - intros H. rewrite firstn_app, P. change (255 - 42)%nat with 213%nat.
    reflexivity.
Qed.

Lemma update_data_uri_fits_witness :
  update_data_uri [0x41; 0x42]
  = bytes_of_string data_uri_format_prefix ++ [0x41; 0x42].
Proof.
  apply (proj1 (proj2 (proj2 (update_data_uri_fits [0x41; 0x42])))). cbn. lia.
Defined.

Lemma final_keeps_data_uri (gatts_if : Z) (tr : list delivery) (g : globals) :
  mds_data_uri (final gatts_if g tr) = mds_data_uri g.
Proof.
  revert g. induction tr as [| [e ev] tr IH]; intros g; cbn [final]; [reflexivity |].
  rewrite IH. handler_cases e ev gatts_if g; reflexivity.
Qed.

Lemma read_value_bounded (g : globals) (handle : Z) (v : list Z) :
  (Datatypes.length (mds_data_uri g) <= 255)%nat ->
  read_value g handle = Some v -> (Datatypes.length v <= 255)%nat.
Proof.
  intros U. unfold read_value.
  assert (D : (Datatypes.length (bytes_of_string mds_device_id) <= 255)%nat)
    by (vm_compute; lia).
  assert (A : (Datatypes.length (bytes_of_string mds_auth) <= 255)%nat)
    by (vm_compute; lia).
  generalize dependent (bytes_of_string mds_device_id).
  generalize dependent (bytes_of_string mds_auth).
  intros la A ld D.
  repeat match goal with
         | |- context [if ?c then _ else _] => destruct c
         end; intros H; try discriminate H; injection H as <-;
    first [assumption | cbn; lia].
Qed.

(** X22. After [update_data_uri] and any trace, a read response that
    carries a value names the handle that was read, has a length field equal
    to the number of bytes of its value, and that length is at most 255. *)
Theorem read_response_bounded (e : env_t) (gatts_if : Z) (device_serial : list Z)
    (tr : list delivery) (cid trans_id handle : Z) (gi ci ti st : Z) (rsp : esp_gatt_rsp_t) :
  let g := final gatts_if (globals_init (update_data_uri device_serial)) tr in
  In (esp_ble_gatts_send_response gi ci ti st (Some rsp))
     (snd (gatts_profile_event_handler e (ESP_GATTS_READ_EVT cid trans_id handle) gatts_if g)) ->
  rsp_handle rsp = handle
  /\ rsp_len rsp = Z.of_nat (Datatypes.length (rsp_value rsp))
  /\ rsp_len rsp <= 255.
Proof.
  cbv zeta. cbn [gatts_profile_event_handler].
  pose proof (read_value_bounded
                (final gatts_if (globals_init (update_data_uri device_serial)) tr)
                handle) as B.
  rewrite final_keeps_data_uri in B. cbn [globals_init mds_data_uri] in B.
  assert (U : (Datatypes.length (update_data_uri device_serial) <= 255)%nat).
  { unfold update_data_uri. rewrite length_firstn.
    change (mds_data_uri_size - 1)%nat with 255%nat. lia. }
  destruct (read_value _ handle) as [v |]; cbn [snd In];
    intros [H | [H | []]]; try discriminate H.
  injection H as _ _ _ _ <-. cbn [rsp_handle rsp_len rsp_value].
  specialize (B v U eq_refl). split; [reflexivity | split; [reflexivity | lia]].
Qed.

Lemma read_response_bounded_witness :
  rsp_handle (mk_rsp 46 44 (update_data_uri [0x41; 0x42])) = 46
  /\ rsp_len (mk_rsp 46 44 (update_data_uri [0x41; 0x42]))
     = Z.of_nat (Datatypes.length (rsp_value (mk_rsp 46 44 (update_data_uri [0x41; 0x42]))))
  /\ rsp_len (mk_rsp 46 44 (update_data_uri [0x41; 0x42])) <= 255.
Proof.
  apply (read_response_bounded env_drained 3 [0x41; 0x42] (build_trace ESP_GATT_OK)
           1 5 46 3 1 5 0).
  cbn. right. left. reflexivity.
Defined.

(** ** The bring-up *)

Lemma boot_seq_assoc (a b c : boot) :
  boot_seq (boot_seq a b) c = boot_seq a (boot_seq b c).
Proof.
  destruct a as [la [ea |]]; [reflexivity |].
  destruct b as [lb [eb |]]; [reflexivity |].
  unfold boot_seq. cbn [fst snd]. rewrite app_assoc. reflexivity.
Qed.

Lemma seq_do_call (c : boot_call) (r : boot) :
  boot_seq (do_call c) r = (called c :: fst r, snd r).
Proof. reflexivity. Qed.

Lemma seq_error_check (res : boot_call -> Z) (c : boot_call) (r : boot) :
  boot_seq (error_check res c) r
  = if res c =? ESP_OK then (called c :: fst r, snd r)
    else ([called c], Some boot_aborted).
Proof. unfold error_check, boot_seq. cbn [fst snd]. destruct (res c =? ESP_OK); reflexivity. Qed.

Lemma seq_or_return (res : boot_call -> Z) (c : boot_call) (fmt : string) (r : boot) :
  boot_seq (or_return res c fmt) r
  = if res c =? 0 then (called c :: fst r, snd r)
    else ([called c; logged_error fmt], Some boot_returned).
Proof. unfold or_return, boot_seq. destruct (res c =? 0); reflexivity. Qed.

Lemma in_peel (x a : boot_item) (l : list boot_item) (P : Prop) :
  a <> x -> (In x l <-> P) -> (In x (a :: l) <-> P).
Proof. intros Hn [H1 H2]. split; [intros [H | H]; [contradiction | auto] | right; auto]. Qed.

Ltac boot_facts :=
  unfold nvs_comes_up, ble_comes_up, ESP_OK, ESP_ERR_NVS_NO_FREE_PAGES,
    ESP_ERR_NVS_NEW_VERSION_FOUND in *.

(** A branch where the bring-up stopped: the call looked for was not made,
    and the results do not let the bring-up through. *)
Ltac boot_stopped :=
  split;
  [ cbn [fst snd In end_of]; intros H; exfalso;
    repeat match type of H with _ \/ _ => destruct H as [H | H] end;
    first [discriminate H | exact H]
  | intros H; exfalso; boot_facts; intuition lia ].

Lemma end_of_run (l : list boot_item) (r : boot) : end_of (l, snd r) = end_of r.
Proof. reflexivity. Qed.

Ltac boot_tested res c k :=
  let E := fresh "E" in
  destruct (Z.eqb_spec (res c) k) as [E | E];
  [first [rewrite end_of_run | cbn [fst]; apply in_peel; [discriminate |]]
  | boot_stopped].

(** One statement of the bring-up, at the head of what is left of it. *)
Ltac boot_step res :=
  lazymatch goal with
  | |- (In _ (fst (boot_seq (do_call ?c) ?r)) <-> _) =>
      rewrite (seq_do_call c r); cbn [fst]; apply in_peel; [discriminate |]
  | |- (In _ (fst (boot_seq (error_check _ ?c) ?r)) <-> _) =>
      rewrite (seq_error_check res c r); boot_tested res c ESP_OK
  | |- (In _ (fst (boot_seq (or_return _ ?c ?fmt) ?r)) <-> _) =>
      rewrite (seq_or_return res c fmt r); boot_tested res c 0
  | |- (end_of (boot_seq (do_call ?c) ?r) = _ <-> _) =>
      rewrite (seq_do_call c r), end_of_run
  | |- (end_of (boot_seq (error_check _ ?c) ?r) = _ <-> _) =>
      rewrite (seq_error_check res c r); boot_tested res c ESP_OK
  | |- (end_of (boot_seq (or_return _ ?c ?fmt) ?r) = _ <-> _) =>
      rewrite (seq_or_return res c fmt r); boot_tested res c 0
  end.

(** X23. [app_main] calls [esp_ble_gatts_app_register] exactly when NVS came
    up (at once, or after the erase its first result asked for) and the
    controller memory release, the controller and Bluedroid initialisation
    and enabling, both callback registrations, the device name and both
    advertising configurations all returned success. *)
Theorem app_register_only_after_bringup (res : boot_call -> Z) :
  In (called (esp_ble_gatts_app_register PROFILE_APP_ID)) (fst (app_main res))
  <-> nvs_comes_up res /\ ble_comes_up res.
Proof.
  unfold app_main. cbv zeta. cbn [fst].
  do 3 boot_step res.
  unfold init_nvs.
  destruct (Z.eqb_spec (res nvs_flash_init) ESP_ERR_NVS_NO_FREE_PAGES) as [N1 | N1];
    [| destruct (Z.eqb_spec (res nvs_flash_init) ESP_ERR_NVS_NEW_VERSION_FOUND)
         as [N2 | N2]];
    cbn [orb]; rewrite ?boot_seq_assoc.
  1, 2: do 13 boot_step res.
  3: do 11 boot_step res.
  all: rewrite seq_or_return;
    (split;
     [ intros _; boot_facts; intuition lia
     | intros _; destruct (res (esp_ble_gatts_app_register PROFILE_APP_ID) =? 0);
       cbn [fst In]; left; reflexivity ]).
Qed.

(** X24. [app_main] creates the console task, and runs to its last
    statement, exactly when every checked step succeeded: NVS, the Bluetooth
    bring-up, the application registration, the UART driver installation
    and the console initialisation. After any failure it returns or aborts
    without creating the task. *)
Theorem console_started_iff_bringup_succeeds (res : boot_call -> Z) :
  let all_up :=
    nvs_comes_up res /\ ble_comes_up res
    /\ res (esp_ble_gatts_app_register PROFILE_APP_ID) = 0
    /\ res uart_driver_install = ESP_OK /\ res esp_console_init = ESP_OK in
  (In (called xTaskCreate_console_task) (fst (app_main res)) <-> all_up)
  /\ (snd (app_main res) = boot_completed <-> all_up).
Proof.
  cbv zeta. split.
  - unfold app_main. cbv zeta. cbn [fst].
    do 3 boot_step res.
    unfold init_nvs, initialize_console.
    destruct (Z.eqb_spec (res nvs_flash_init) ESP_ERR_NVS_NO_FREE_PAGES) as [N1 | N1];
      [| destruct (Z.eqb_spec (res nvs_flash_init) ESP_ERR_NVS_NEW_VERSION_FOUND)
           as [N2 | N2]];
      cbn [orb]; rewrite ?boot_seq_assoc.
    1, 2: do 24 boot_step res.
    3: do 22 boot_step res.
    all: cbn [do_call fst In];
      (split; [intros _; boot_facts; intuition lia | intros _; left; reflexivity]).
  - unfold app_main. cbv zeta. cbn [snd].
    do 3 boot_step res.
    unfold init_nvs, initialize_console.
    destruct (Z.eqb_spec (res nvs_flash_init) ESP_ERR_NVS_NO_FREE_PAGES) as [N1 | N1];
      [| destruct (Z.eqb_spec (res nvs_flash_init) ESP_ERR_NVS_NEW_VERSION_FOUND)
           as [N2 | N2]];
      cbn [orb]; rewrite ?boot_seq_assoc.
    1, 2: do 24 boot_step res.
    3: do 22 boot_step res.
    all: cbn [do_call snd end_of];
      (split; [intros _; boot_facts; intuition lia | intros _; reflexivity]).
Qed.
